(** * ap_float tutorial and annotated-argument utilities: a shallow embedding

    The development follows the sources of the FPGA samples:

    - [quadratic_gold] (the native [double] reference of the quadratic
      solver), the sine, conversion and quadratic kernels and their test
      drivers of the [ap_float] tutorial;
    - [alloc_annotated] and [remove_align_from] of
      [annotated_class_util.hpp];
    - the kernels [DDRIP], [SimpleVAddKernel] and [pipeWithAnnotatedPtr] of
      the annotated-argument and annotated-pointer samples, with their
      hosts.

    Native [double] and [float] values are IEEE-754 binary64 and binary32
    numbers.  They are represented by [spec_float] (sign, mantissa and
    exponent as integers, one NaN), and every operation is the correctly
    rounded one of the Standard Library's [SpecFloat], round to nearest,
    ties to even. *)

From Stdlib Require Import ZArith QArith Qabs Bool List String Lia.
From Stdlib Require Import Floats.SpecFloat.
Import ListNotations.

Local Open Scope Z_scope.

(** ** Native double precision *)

Module Double.

Definition prec : Z := 53.
Definition emax : Z := 1024.

Definition double : Type := spec_float.

Definition NAN : double := S754_nan.
Definition zero : double := S754_zero false.

Definition add : double -> double -> double := SFadd prec emax.
Definition sub : double -> double -> double := SFsub prec emax.
Definition mul : double -> double -> double := SFmul prec emax.
Definition div : double -> double -> double := SFdiv prec emax.
Definition sqrt : double -> double := SFsqrt prec emax.
Definition fabs : double -> double := SFabs.
Definition neg : double -> double := SFopp.

(** [x < y], [x > y] and [x >= y] of C++: false as soon as one side is NaN. *)
Definition lt (x y : double) : bool := SFltb x y.
Definition gt (x y : double) : bool := SFltb y x.
Definition ge (x y : double) : bool := SFleb y x.

Definition isnan (x : double) : bool :=
  match x with S754_nan => true | _ => false end.

(** A decimal literal [m / 10^k] (negated when [s] is set), rounded to the
    nearest double as a compiler does: the quotient of the two integers is
    rounded once. *)
Definition literal (s : bool) (m : positive) (k : Z) : double :=
  SFdiv prec emax (S754_finite s m 0) (S754_finite false (Z.to_pos (10 ^ k)) 0).

(** The conversion of an [int] to [double]. *)
Definition of_int (n : Z) : double := binary_normalize prec emax n 0 false.

(** The real number a finite double stands for; [0] for the others. *)
Definition to_Q (x : double) : Q :=
  match x with
  | S754_finite s m e =>
      let v := (inject_Z (Zpos m) * Qpower 2 e)%Q in
      if s then Qopp v else v
  | _ => 0%Q
  end.

Definition is_finite (x : double) : bool :=
  match x with
  | S754_finite _ _ _ | S754_zero _ => true
  | _ => false
  end.

End Double.

Import Double.

Declare Scope double_scope.
Delimit Scope double_scope with double.
Bind Scope double_scope with double.
Infix "+" := Double.add : double_scope.
Infix "-" := Double.sub : double_scope.
Infix "*" := Double.mul : double_scope.
Infix "/" := Double.div : double_scope.
Notation "- x" := (Double.neg x) : double_scope.
Infix "<?" := Double.lt : double_scope.
Infix ">?" := Double.gt (at level 70) : double_scope.
Infix ">=?" := Double.ge (at level 70) : double_scope.

(** The literals of the sources. *)
Definition d0_0 : double := zero.
Definition d1_0 : double := of_int 1.
Definition d2_0 : double := of_int 2.
Definition d4_0 : double := of_int 4.
Definition d6_0 : double := of_int 6.
Definition d1e_20 : double := literal false 1 20.
Definition d1e_13 : double := literal false 1 13.
Definition d1e_6 : double := literal false 1 6.
Definition d1e_5 : double := literal false 1 5.

Definition DoublePair : Type := (double * double)%type.

(** ** The reference solver, [quadratic_gold] *)

Definition quadratic_gold (a b c : double) : DoublePair :=
  let rooted := (b * b - d4_0 * a * c)%double in
  let rooted_abs := fabs rooted in
  if (rooted >? d0_0)%double || (rooted_abs <? d1e_20)%double then
    let root := sqrt rooted_abs in
    ((- b + root) / (d2_0 * a), (- b - root) / (d2_0 * a))%double
  else
    (NAN, NAN).

(** The reference solver as the specification words it: the discriminant,
    the test on it, and the two roots or the two NaNs. *)
Module QuadraticSpec.

Definition discriminant (a b c : double) : double :=
  (b * b - d4_0 * a * c)%double.

Definition has_real_roots (d : double) : bool :=
  (d >? d0_0)%double || (fabs d <? d1e_20)%double.

Definition roots (a b d : double) : DoublePair :=
  ((- b + sqrt (fabs d)) / (d2_0 * a),
   (- b - sqrt (fabs d)) / (d2_0 * a))%double.

Definition solve (a b c : double) : DoublePair :=
  let d := discriminant a b c in
  if has_real_roots d then roots a b d else (NAN, NAN).

End QuadraticSpec.

(** The conversion of a [double] to a native [float] (binary32), as at the
    call of a kernel whose parameters are [const float]. *)
Definition to_float (x : double) : spec_float :=
  match x with
  | S754_finite s m e => binary_round 24 128 s m e
  | _ => x
  end.

(** ** The configurable-precision type, [ihc::ap_float<E, M, Rnd>] *)

(** Modelled from the spec: the headers [ap_float.hpp] and
    [ap_float_math.hpp] of the vendor library are not among the sources; only
    their callers are.  The module follows sections 3 and 4 of the
    specification (BitLayout, RoundingPolicy, ConfigurableFloat,
    ArithmeticOps), and the comments of the kernels and of the tutorial's
    README where the specification is silent (default accuracy and subnormal
    options, rounding mode of a result).

    A value is kept as [spec_float], normalised for its layout: for a layout
    [(E, M)] the precision is [M + 1] and the exponent of infinity is
    [2 ^ (E - 1)], so that [(11, 52)] is binary64 and [(8, 23)] binary32. *)

Module ApFloat.

Record BitLayout : Type := { E : Z; M : Z }.

Definition valid_layout (L : BitLayout) : bool :=
  (0 <? E L) && (0 <? M L) && (E L + M L + 1 <=? 64).

Definition layout_eqb (L1 L2 : BitLayout) : bool :=
  (E L1 =? E L2) && (M L1 =? M L2).

(** Section 4.1: bias, largest exponent field, smallest magnitudes. *)
Definition bias (L : BitLayout) : Z := 2 ^ (E L - 1) - 1.
Definition max_exponent_field (L : BitLayout) : Z := 2 ^ E L - 1.
Definition smallest_normal_exponent (L : BitLayout) : Z := 1 - bias L.
Definition smallest_subnormal_exponent (L : BitLayout) : Z := 1 - bias L - M L.

Definition prec (L : BitLayout) : Z := M L + 1.
Definition emax (L : BitLayout) : Z := bias L + 1.

Inductive RoundingMode : Type := RoundNearestEven | RoundTowardZero.

(** [Low] carries the outcome of the cheaper algorithm on an inexact
    result: the representable neighbour away from zero when [away] is set,
    the one toward zero otherwise; both are within one ULP, and a theorem
    on a [Low] operation quantifies over [away]. *)
Inductive AccuracyTier : Type := High | Low (away : bool).

Inductive SubnormalMode : Type := On | Off.

Record ConfigurableFloat : Type :=
  { layout : BitLayout; mode : RoundingMode; value : spec_float }.

(** *** Classification (section 4.1) *)

Definition is_nan (x : ConfigurableFloat) : bool :=
  match value x with S754_nan => true | _ => false end.

Definition is_infinite (x : ConfigurableFloat) : bool :=
  match value x with S754_infinity _ => true | _ => false end.

Definition is_zero (x : ConfigurableFloat) : bool :=
  match value x with S754_zero _ => true | _ => false end.

Definition is_subnormal (x : ConfigurableFloat) : bool :=
  match value x with
  | S754_finite _ m _ => Zpos (digits2_pos m) <? prec (layout x)
  | _ => false
  end.

Definition sign_of (x : ConfigurableFloat) : bool :=
  match value x with
  | S754_zero s | S754_infinity s | S754_finite s _ _ => s
  | S754_nan => false
  end.

Definition finite_value (v : spec_float) : bool :=
  match v with S754_finite _ _ _ => true | _ => false end.

(** *** RoundingPolicy (section 4.2)

    The intermediate result is [mx * 2 ^ ex] plus a fraction of
    [2 ^ ex] located by [lx], with sign [sx]. *)

Inductive direction : Type := ToNearestEven | TowardZero | AwayFromZero.

Definition round_mantissa (d : direction) (mx : Z) (lx : location) : Z :=
  match d with
  | ToNearestEven => round_nearest_even mx lx
  | TowardZero => mx
  | AwayFromZero =>
      match lx with loc_Exact => mx | loc_Inexact _ => mx + 1 end
  end.

(** The magnitude [(mx + fraction) * 2 ^ ex] is below the smallest normal
    value [2 ^ (1 - bias)]. *)
Definition below_normal (L : BitLayout) (mx ex : Z) : bool :=
  Zdigits2 mx + ex <=? smallest_normal_exponent L.

(** Modelled from the spec: the rounding of section 4.2; with
    [SubnormalMode] off a magnitude below the smallest normal value is
    flushed to a signed zero before rounding. *)
Definition round_in (L : BitLayout) (d : direction) (subn : SubnormalMode)
    (sx : bool) (mx ex : Z) (lx : location) : spec_float :=
  match subn, below_normal L mx ex with
  | Off, true => S754_zero sx
  | _, _ =>
      let '(mrs', e') := shr_fexp (prec L) (emax L) mx ex lx in
      let '(mrs'', e'') :=
        shr_fexp (prec L) (emax L)
          (round_mantissa d (shr_m mrs') (loc_of_shr_record mrs')) e'
          loc_Exact in
      match shr_m mrs'' with
      | Z0 => S754_zero sx
      | Zpos m =>
          if e'' <=? emax L - prec L then S754_finite sx m e''
          else S754_infinity sx
      | Zneg _ => S754_nan
      end
  end.

(** An exact intermediate [mx * 2 ^ ex] is first brought to the exponent
    of its magnitude in [L], then rounded. *)
Definition round_exact (L : BitLayout) (d : direction) (subn : SubnormalMode)
    (sx : bool) (mx : positive) (ex : Z) : spec_float :=
  let '(mz, ez) :=
    shl_align mx ex (fexp (prec L) (emax L) (Zpos (digits2_pos mx) + ex)) in
  round_in L d subn sx (Zpos mz) ez loc_Exact.

Definition mode_direction (m : RoundingMode) : direction :=
  match m with
  | RoundNearestEven => ToNearestEven
  | RoundTowardZero => TowardZero
  end.

(** Modelled from the spec: [round(value, target_layout, mode)] of
    section 4.2; NaN stays NaN, infinities and zeros are kept. *)
Definition round (v : spec_float) (L : BitLayout) (m : RoundingMode)
    : spec_float :=
  match v with
  | S754_finite s mx ex => round_exact L (mode_direction m) On s mx ex
  | _ => v
  end.

(** *** Construction and conversion (section 4.3) *)

Definition from_native (v : double) (L : BitLayout) (m : RoundingMode)
    : ConfigurableFloat :=
  {| layout := L; mode := m; value := round v L m |}.

Definition convert (v : ConfigurableFloat) (L : BitLayout) (m : RoundingMode)
    : ConfigurableFloat :=
  {| layout := L; mode := m; value := round (value v) L m |}.

Definition binary64 : BitLayout := {| E := 11; M := 52 |}.
Definition binary32 : BitLayout := {| E := 8; M := 23 |}.

Definition to_double (v : ConfigurableFloat) : double :=
  round (value v) binary64 RoundNearestEven.

(** Modelled from the spec: the promotion rule of section 4.3 for mixed
    layouts. *)
Definition dominates (L1 L2 : BitLayout) : bool :=
  (E L2 <? E L1) || ((E L1 =? E L2) && (M L2 <? M L1)).

Definition promotion_mode (x : ConfigurableFloat) : RoundingMode :=
  match mode x with
  | RoundTowardZero => RoundTowardZero
  | RoundNearestEven => RoundNearestEven
  end.

Definition to_layout (W : BitLayout) (x : ConfigurableFloat)
    : ConfigurableFloat :=
  if layout_eqb (layout x) W then x else convert x W (promotion_mode x).

Definition promote (x y : ConfigurableFloat)
    : ConfigurableFloat * ConfigurableFloat :=
  if layout_eqb (layout x) (layout y) then (x, y)
  else if dominates (layout x) (layout y) then (x, to_layout (layout x) y)
  else (to_layout (layout y) x, y).

(** *** ArithmeticOps (section 4.4) *)

Definition tier_direction (t : AccuracyTier) : direction :=
  match t with
  | High => ToNearestEven
  | Low away => if away then AwayFromZero else TowardZero
  end.

(** Modelled from the spec: the operations of section 4.4 on values
    already in the working layout [W]; the special cases first, then the
    exact result rounded per tier. *)

Definition add_value (W : BitLayout) (t : AccuracyTier) (subn : SubnormalMode)
    (x y : spec_float) : spec_float :=
  match x, y with
  | S754_nan, _ | _, S754_nan => S754_nan
  | S754_infinity sx, S754_infinity sy =>
      if Bool.eqb sx sy then x else S754_nan
  | S754_infinity _, _ => x
  | _, S754_infinity _ => y
  | S754_zero sx, S754_zero sy =>
      if Bool.eqb sx sy then x else S754_zero false
  | S754_zero _, _ => y
  | _, S754_zero _ => x
  | S754_finite sx mx ex, S754_finite sy my ey =>
      let ez := Z.min ex ey in
      match cond_Zopp sx (Zpos (fst (shl_align mx ex ez)))
            + cond_Zopp sy (Zpos (fst (shl_align my ey ez))) with
      | Z0 => S754_zero false
      | Zpos m => round_exact W (tier_direction t) subn false m ez
      | Zneg m => round_exact W (tier_direction t) subn true m ez
      end
  end.

Definition sub_value (W : BitLayout) (t : AccuracyTier) (subn : SubnormalMode)
    (x y : spec_float) : spec_float :=
  add_value W t subn x (SFopp y).

Definition mul_value (W : BitLayout) (t : AccuracyTier) (subn : SubnormalMode)
    (x y : spec_float) : spec_float :=
  match x, y with
  | S754_nan, _ | _, S754_nan => S754_nan
  | S754_infinity sx, S754_infinity sy => S754_infinity (xorb sx sy)
  | S754_infinity sx, S754_finite sy _ _ => S754_infinity (xorb sx sy)
  | S754_finite sx _ _, S754_infinity sy => S754_infinity (xorb sx sy)
  | S754_infinity _, S754_zero _ => S754_nan
  | S754_zero _, S754_infinity _ => S754_nan
  | S754_finite sx _ _, S754_zero sy => S754_zero (xorb sx sy)
  | S754_zero sx, S754_finite sy _ _ => S754_zero (xorb sx sy)
  | S754_zero sx, S754_zero sy => S754_zero (xorb sx sy)
  | S754_finite sx mx ex, S754_finite sy my ey =>
      round_exact W (tier_direction t) subn (xorb sx sy) (mx * my) (ex + ey)
  end.

Definition div_value (W : BitLayout) (t : AccuracyTier) (subn : SubnormalMode)
    (x y : spec_float) : spec_float :=
  match x, y with
  | S754_nan, _ | _, S754_nan => S754_nan
  | S754_infinity _, S754_infinity _ => S754_nan
  | S754_infinity sx, S754_finite sy _ _ => S754_infinity (xorb sx sy)
  | S754_finite sx _ _, S754_infinity sy => S754_zero (xorb sx sy)
  | S754_infinity sx, S754_zero sy => S754_infinity (xorb sx sy)
  | S754_zero sx, S754_infinity sy => S754_zero (xorb sx sy)
  | S754_finite sx _ _, S754_zero sy => S754_infinity (xorb sx sy)
  | S754_zero sx, S754_finite sy _ _ => S754_zero (xorb sx sy)
  | S754_zero _, S754_zero _ => S754_nan
  | S754_finite sx mx ex, S754_finite sy my ey =>
      let '(mz, ez, lz) :=
        SFdiv_core_binary (prec W) (emax W) (Zpos mx) ex (Zpos my) ey in
      round_in W (tier_direction t) subn (xorb sx sy) mz ez lz
  end.

Definition sqrt_value (W : BitLayout) (t : AccuracyTier) (subn : SubnormalMode)
    (x : spec_float) : spec_float :=
  match x with
  | S754_nan => S754_nan
  | S754_infinity false => x
  | S754_infinity true => S754_nan
  | S754_finite true _ _ => S754_nan
  | S754_zero _ => x
  | S754_finite false mx ex =>
      let '(mz, ez, lz) :=
        SFsqrt_core_binary (prec W) (emax W) (Zpos mx) ex in
      round_in W (tier_direction t) subn false mz ez lz
  end.

(** The result of an operation is a value of the default type of its
    layout, whose rounding mode is [RoundNearestEven]. *)
Definition result (W : BitLayout) (v : spec_float) : ConfigurableFloat :=
  {| layout := W; mode := RoundNearestEven; value := v |}.

(** Modelled from the spec: [ap_float<E, M>::add/sub/div<Accuracy,
    Subnormal>(op1, op2)] of section 4.4; both operands are rounded to [W]
    first. *)
Definition add (W : BitLayout) (t : AccuracyTier) (subn : SubnormalMode)
    (op1 op2 : ConfigurableFloat) : ConfigurableFloat :=
  result W (add_value W t subn (value (to_layout W op1))
                               (value (to_layout W op2))).

Definition sub (W : BitLayout) (t : AccuracyTier) (subn : SubnormalMode)
    (op1 op2 : ConfigurableFloat) : ConfigurableFloat :=
  result W (sub_value W t subn (value (to_layout W op1))
                               (value (to_layout W op2))).

Definition div (W : BitLayout) (t : AccuracyTier) (subn : SubnormalMode)
    (op1 op2 : ConfigurableFloat) : ConfigurableFloat :=
  result W (div_value W t subn (value (to_layout W op1))
                               (value (to_layout W op2))).

(** Modelled from the spec: [ap_float<E, M>::mul<Accuracy,
    Subnormal>(op1, op2)] of section 4.4; the operands are left intact,
    whatever their layouts, and only the product is rounded. *)
Definition mul (W : BitLayout) (t : AccuracyTier) (subn : SubnormalMode)
    (op1 op2 : ConfigurableFloat) : ConfigurableFloat :=
  result W (mul_value W t subn (value op1) (value op2)).

Definition sqrt (t : AccuracyTier) (subn : SubnormalMode)
    (op : ConfigurableFloat) : ConfigurableFloat :=
  result (layout op) (sqrt_value (layout op) t subn (value op)).

(** The operators [+ - * /]: the operands are promoted to the dominant
    layout, the options are the defaults (high accuracy, no subnormal
    numbers). *)
Definition binary_operator
    (f : BitLayout -> AccuracyTier -> SubnormalMode ->
         ConfigurableFloat -> ConfigurableFloat -> ConfigurableFloat)
    (x y : ConfigurableFloat) : ConfigurableFloat :=
  let '(x', y') := promote x y in
  f (layout x') High Off x' y'.

Definition op_add := binary_operator add.
Definition op_sub := binary_operator sub.
Definition op_mul := binary_operator mul.
Definition op_div := binary_operator div.

Definition neg (x : ConfigurableFloat) : ConfigurableFloat :=
  {| layout := layout x; mode := mode x; value := SFopp (value x) |}.

Definition abs (x : ConfigurableFloat) : ConfigurableFloat :=
  {| layout := layout x; mode := mode x; value := SFabs (value x) |}.

Definition nan (L : BitLayout) : ConfigurableFloat := result L S754_nan.

(** Comparisons, NaN unordered. *)
Definition lt (x y : ConfigurableFloat) : bool :=
  let '(x', y') := promote x y in SFltb (value x') (value y').
Definition gt (x y : ConfigurableFloat) : bool := lt y x.

(** An assignment to a variable of type [ap_float<E, M, Rnd>]. *)
Definition assign (L : BitLayout) (m : RoundingMode) (x : ConfigurableFloat)
    : ConfigurableFloat :=
  if layout_eqb (layout x) L
  then {| layout := L; mode := m; value := value x |}
  else convert x L m.

End ApFloat.

(** ** The types and constants of the tutorial *)

Import ApFloat.

Declare Scope ap_scope.
Delimit Scope ap_scope with ap.
Bind Scope ap_scope with ConfigurableFloat.
Infix "+" := ApFloat.op_add : ap_scope.
Infix "-" := ApFloat.op_sub : ap_scope.
Infix "*" := ApFloat.op_mul : ap_scope.
Infix "/" := ApFloat.op_div : ap_scope.
Notation "- x" := (ApFloat.neg x) : ap_scope.
Infix "<?" := ApFloat.lt : ap_scope.
Infix ">?" := ApFloat.gt (at level 70) : ap_scope.

(** A type [ihc::ap_float<E, M, Rnd>]: a layout and the rounding mode of the
    conversions into it. *)
Record ap_type : Type := { ty_layout : BitLayout; ty_mode : RoundingMode }.

Definition APFloatType : ap_type :=
  {| ty_layout := binary32; ty_mode := RoundNearestEven |}.
Definition APDoubleType : ap_type :=
  {| ty_layout := binary64; ty_mode := RoundNearestEven |}.
Definition APFloatTypeB : ap_type :=
  {| ty_layout := binary32; ty_mode := RoundTowardZero |}.
Definition APDoubleTypeB : ap_type :=
  {| ty_layout := binary64; ty_mode := RoundTowardZero |}.
Definition APDoubleTypeC : ap_type :=
  {| ty_layout := {| E := 11; M := 44 |}; ty_mode := RoundTowardZero |}.

(** The construction [T v(x)] or [(T)x] of an [ap_float] from a native
    value, and the assignment of an [ap_float] to a variable of type [T]. *)
Definition construct (T : ap_type) (v : double) : ConfigurableFloat :=
  from_native v (ty_layout T) (ty_mode T).

Definition store (T : ap_type) (x : ConfigurableFloat) : ConfigurableFloat :=
  assign (ty_layout T) (ty_mode T) x.

(** A [double] literal among [ap_float] operands. *)
Definition lit (v : double) : ConfigurableFloat := construct APDoubleType v.

(** A [float] literal, the decimal [m / 10^k] rounded once to binary32. *)
Definition float_literal (s : bool) (m : positive) (k : Z) : spec_float :=
  SFdiv 24 128 (S754_finite s m 0) (S754_finite false (Z.to_pos (10 ^ k)) 0).

Definition kSineApproximateTermsCount : nat := 10.
Definition kSineApproximationEpsilon : double := d1e_13.

(** [M_PI_4] and [M_SQRT1_2] of [math.h]. *)
Definition M_PI_4 : double := literal false 78539816339744830962 20.
Definition M_SQRT1_2 : double := literal false 70710678118654752440 20.

(** ** Polynomial sine approximation *)

(** What the kernel template asks of its type parameter [T]. *)
Class Arith (T : Type) : Type :=
  { of_double : double -> T;
    of_int : Z -> T;
    plus : T -> T -> T;
    times : T -> T -> T;
    divide : T -> T -> T;
    negate : T -> T }.

#[export] Instance double_arith : Arith double :=
  {| of_double := fun v => v;
     of_int := Double.of_int;
     plus := Double.add;
     times := Double.mul;
     divide := Double.div;
     negate := Double.neg |}.

Definition ap_arith (T : ap_type) : Arith ConfigurableFloat :=
  {| of_double := construct T;
     of_int := fun n => construct T (Double.of_int n);
     plus := fun x y => store T (x + y)%ap;
     times := fun x y => store T (x * y)%ap;
     divide := fun x y => store T (x / y)%ap;
     negate := fun x => (- x)%ap |}.

(** The same kernel over the rationals, where no operation rounds. *)
Definition exact_arith : Arith Q :=
  {| of_double := Double.to_Q;
     of_int := inject_Z;
     plus := Qplus;
     times := Qmult;
     divide := Qdiv;
     negate := Qopp |}.

Section SineApproximationKernel.

Context {T : Type} {A : Arith T}.

Record sine_state : Type :=
  { res : T; sign : T; term : T; numerator : T; denom : T }.

Definition sine_init (x : T) : sine_state :=
  {| res := of_double d0_0; sign := of_double d1_0; term := x;
     numerator := x; denom := of_double d1_0 |}.

(** The body of the loop, for the index [i]. *)
Definition sine_step (x : T) (st : sine_state) (i : Z) : sine_state :=
  let res' := plus (res st) (term st) in
  let sign' := negate (sign st) in
  let denom' := times (denom st) (of_int (2 * i * (2 * i + 1))) in
  let numerator' := times (numerator st) (times x x) in
  let term' := divide (times sign' numerator') denom' in
  {| res := res'; sign := sign'; term := term';
     numerator := numerator'; denom := denom' |}.

Definition SineApproximationKernel (input : T) : T :=
  res (fold_left (sine_step input)
         (map Z.of_nat (seq 1 kSineApproximateTermsCount))
         (sine_init input)).

End SineApproximationKernel.

Record sine_report : Type :=
  { double_result : double; ap_float_result : ConfigurableFloat;
    difference_a : double; difference_b : double;
    passed_native : bool; passed_non_native : bool }.

Definition sine_report_of (input expected : double) : sine_report :=
  let double_result := SineApproximationKernel (A := double_arith) input in
  let ap_float_input := construct APDoubleTypeC input in
  let ap_float_result :=
    SineApproximationKernel (A := ap_arith APDoubleTypeC) ap_float_input in
  let difference_a := fabs (double_result - expected)%double in
  let difference_b := fabs (to_double ap_float_result - expected)%double in
  {| double_result := double_result; ap_float_result := ap_float_result;
     difference_a := difference_a; difference_b := difference_b;
     passed_native := (difference_a <? kSineApproximationEpsilon)%double;
     passed_non_native := (difference_b <? kSineApproximationEpsilon)%double |}.

Definition TestSineApproximation : bool :=
  let r := sine_report_of M_PI_4 M_SQRT1_2 in
  passed_native r && passed_non_native r.

(** The factorial, in [Z]. *)
Fixpoint factorial (n : nat) : Z :=
  match n with
  | O => 1
  | S k => Z.of_nat (S k) * factorial k
  end.

(** The sum of the first [n] terms of the Taylor series of the sine:
    [x - x^3/3! + x^5/5! - ...]. *)
Fixpoint taylor_sine (n : nat) (x : Q) : Q :=
  match n with
  | O => 0
  | S k =>
      taylor_sine k x
      + (-1) ^ Z.of_nat k * x ^ Z.of_nat (2 * k + 1)
        / inject_Z (factorial (2 * k + 1))
  end%Q.

(** ** Rounding mode and conversion examples *)

Definition TestConversionKernelA (num : ConfigurableFloat) : ConfigurableFloat :=
  let x := construct APFloatType (float_literal false 31 1) in
  let y := construct APDoubleType (literal false 41 1) in
  let z := construct APFloatType (literal false 41 1) in
  store APDoubleType (x * num + y * num + z)%ap.

Definition TestConversionKernelB (num : ConfigurableFloat) : ConfigurableFloat :=
  let x := construct APFloatTypeB (float_literal false 31 1) in
  let y := construct APDoubleTypeB (literal false 41 1) in
  let z := construct APFloatTypeB (literal false 41 1) in
  store APDoubleTypeB (x * num + y * num + z)%ap.

Definition TestConversionKernelC (num : ConfigurableFloat) : ConfigurableFloat :=
  let x := construct APFloatType (float_literal false 31 1) in
  let y := construct APDoubleType (literal false 41 1) in
  let z := store APFloatType (convert y binary32 RoundTowardZero) in
  store APDoubleType
    (convert (x * num)%ap binary64 RoundNearestEven
     + y * num
     + convert z binary64 RoundTowardZero)%ap.

Definition kConversionKernelEpsilon : double := d1e_5.

Record conversion_report : Type :=
  { conv_res : ConfigurableFloat; conv_expected : double;
    conv_difference : double; conv_passed : bool }.

Definition RunSpecifiedConversionKernel (T1 T2 : ap_type)
    (kernel_func : ConfigurableFloat -> ConfigurableFloat)
    : conversion_report :=
  let input := construct T1 (float_literal false 101 1) in
  let res := store T2 (kernel_func input) in
  let expected :=
    to_double (lit (literal false 31 1) * input
               + lit (literal false 41 1) * input
               + lit (literal false 41 1))%ap in
  let difference := to_double (abs (res - lit expected)%ap) in
  {| conv_res := res; conv_expected := expected;
     conv_difference := difference;
     conv_passed := (difference <? kConversionKernelEpsilon)%double |}.

Definition TestAllConversionKernels : bool :=
  let passed_A :=
    conv_passed
      (RunSpecifiedConversionKernel APFloatType APDoubleType
         TestConversionKernelA) in
  let passed_B :=
    conv_passed
      (RunSpecifiedConversionKernel APFloatTypeB APDoubleTypeB
         TestConversionKernelB) in
  let passed_C :=
    conv_passed
      (RunSpecifiedConversionKernel APFloatType APDoubleType
         TestConversionKernelC) in
  passed_A && passed_B && passed_C.

(** ** Quadratic equation solver *)

Definition PairAPDoubleType : Type :=
  (ConfigurableFloat * ConfigurableFloat)%type.

(** The discriminant of the simple kernel, and the kernel. *)
Definition simple_rooted (A B C : spec_float) : ConfigurableFloat :=
  let a := construct APDoubleType A in
  let b := construct APDoubleType B in
  let c := construct APDoubleType C in
  (b * b - lit d4_0 * a * c)%ap.

Definition TestSimpleQuadraticEqnSolver (A B C : spec_float)
    : PairAPDoubleType :=
  let a := construct APDoubleType A in
  let b := construct APDoubleType B in
  let rooted := simple_rooted A B C in
  if (rooted >? lit d0_0)%ap || (abs rooted <? lit d1e_20)%ap then
    let rooted' := if (rooted <? lit d0_0)%ap then (- rooted)%ap else rooted in
    let root := ApFloat.sqrt High Off rooted' in
    ((- b + root) / (lit d2_0 * a), (- b - root) / (lit d2_0 * a))%ap
  else
    (nan binary64, nan binary64).

(** The outcomes of the five low-accuracy operations of the specialized
    kernel. *)
Record low_outcomes : Type :=
  { in_bsquare : bool; in_fourA : bool; in_fourAC : bool;
    in_root1 : bool; in_root2 : bool }.

Definition specialized_rooted (o : low_outcomes) (A B C : spec_float)
    : ConfigurableFloat :=
  let a := construct APFloatType A in
  let b := construct APFloatType B in
  let c := construct APFloatType C in
  let bsquare := mul binary64 (Low (in_bsquare o)) Off b b in
  let fourA :=
    mul binary64 (Low (in_fourA o)) Off
      (construct APFloatType (float_literal false 4 0)) a in
  let fourAC := mul binary64 (Low (in_fourAC o)) Off fourA c in
  ApFloat.sub binary64 High On bsquare fourAC.

Definition TestSpecializedQuadraticEqnSolver (o : low_outcomes)
    (A B C : spec_float) : PairAPDoubleType :=
  let a := construct APFloatType A in
  let b := construct APFloatType B in
  let rooted := specialized_rooted o A B C in
  if (rooted >? lit d0_0)%ap || (abs rooted <? lit d1e_20)%ap then
    let rooted' := if (rooted <? lit d0_0)%ap then (- rooted)%ap else rooted in
    let root := ApFloat.sqrt High Off rooted' in
    (ApFloat.div binary64 (Low (in_root1 o)) Off
       (- b + root)%ap (lit d2_0 * a)%ap,
     ApFloat.div binary64 (Low (in_root2 o)) Off
       (- b - root)%ap (lit d2_0 * a)%ap)
  else
    (nan binary64, nan binary64).

Definition kQuadraticEqnEpsilon : double := d1e_6.

Definition testvec : list (double * double * double) :=
  [ (d1_0, literal true 51 1, d6_0);
    (d2_0, literal false 41 1, d2_0);
    (d1_0, literal false 1 1, d0_0) ].

(** The comparison of one output with its golden result: [passed] is
    cleared when a difference exceeds the tolerance. *)
Definition tolerance_check (passed : bool) (output : PairAPDoubleType)
    (golden : DoublePair) : bool :=
  let diff_root1 := fabs (to_double (fst output) - fst golden)%double in
  let diff_root2 := fabs (to_double (snd output) - snd golden)%double in
  if (diff_root1 >? kQuadraticEqnEpsilon)%double
     || (diff_root2 >? kQuadraticEqnEpsilon)%double
  then false
  else passed.

Definition run_testvec
    (func : spec_float -> spec_float -> spec_float -> PairAPDoubleType)
    (passed : bool) (v : double * double * double) : bool :=
  let '(a, b, c) := v in
  let output := func (to_float a) (to_float b) (to_float c) in
  let golden := quadratic_gold a b c in
  tolerance_check passed output golden.

(** The NaN case at the end of the driver. *)
Definition nan_check (passed : bool) (nan_pair : PairAPDoubleType) : bool :=
  if negb (isnan (to_double (fst nan_pair))
           && isnan (to_double (snd nan_pair)))
  then false
  else passed.

Definition RunSpecifiedQuadraticEqnSolverKernel
    (func : spec_float -> spec_float -> spec_float -> PairAPDoubleType)
    : bool :=
  let passed := fold_left (run_testvec func) testvec true in
  let nan_pair := func (to_float d1_0) (to_float d2_0) (to_float d4_0) in
  nan_check passed nan_pair.

Definition TestQuadraticEquationSolverKernels (o : low_outcomes) : bool :=
  let test_a :=
    RunSpecifiedQuadraticEqnSolverKernel TestSimpleQuadraticEqnSolver in
  let test_b :=
    RunSpecifiedQuadraticEqnSolverKernel
      (TestSpecializedQuadraticEqnSolver o) in
  test_a && test_b.

(** ** [annotated_class_util.hpp]: allocation of annotated arguments *)

Module AnnotatedClassUtil.

Definition pointer : Type := Z.
Definition nullptr : pointer := 0.

(** The properties the samples put on their kernel arguments. *)
Inductive property : Type :=
| buffer_location (n : Z)
| maxburst (n : Z)
| dwidth (n : Z)
| awidth (n : Z)
| latency (n : Z)
| alignment (n : Z)
| read_write_mode_read
| read_write_mode_write.

Definition properties_t : Type := list property.

Definition HasAlign (p : property) : bool :=
  match p with alignment _ => true | _ => false end.

(** [remove_align_from]: the list without its first alignment property. *)
Fixpoint remove_align_from (ps : properties_t) : properties_t :=
  match ps with
  | [] => []
  | p :: ps' => if HasAlign p then ps' else p :: remove_align_from ps'
  end.

Inductive usm_alloc : Type := host | device | shared | unknown.

(** An [annotated_arg<T *, Props>] or [annotated_ptr<T, Props>]: the raw
    pointer and the property list of the type. *)
Record annotated : Type := { get : pointer; props : properties_t }.

(** How a call ends: it returns, or the program is terminated after
    writing to [std::cerr]. *)
Inductive outcome (A W : Type) : Type :=
| Returned (a : A) (w : W)
| Terminated (cerr : list string) (w : W).
Arguments Returned {A W} a w.
Arguments Terminated {A W} cerr w.

Section Alloc.

(** The SYCL runtime: the queue, the state of the memory, the alignment
    of a property list and the annotated allocation itself. *)
Variables queue world : Type.
Variable GetAlignFromPropList : properties_t -> Z.
Variable aligned_alloc_annotated :
  properties_t -> Z -> Z -> queue -> usm_alloc -> world -> annotated * world.

(** [split_annotated_type<T>], for the type [T] of property list [all]. *)
Record split_annotated_type : Type :=
  { all_properties : properties_t;
    type_alignment : Z;
    properties : properties_t }.

Definition split (all : properties_t) : split_annotated_type :=
  {| all_properties := all;
     type_alignment := GetAlignFromPropList all;
     properties := remove_align_from all |}.

Definition alloc_annotated (T : properties_t) (count : Z)
    (syclQueue : queue) (usmKind : usm_alloc) (w : world)
    : outcome annotated world :=
  let '(ann_ptr, w') :=
    aligned_alloc_annotated (properties (split T))
      (type_alignment (split T)) count syclQueue usmKind w in
  if get ann_ptr =? nullptr then
    Terminated ["Memory allocation returns null"%string] w'
  else
    Returned {| get := get ann_ptr; props := T |} w'.

End Alloc.

End AnnotatedClassUtil.

(** ** Reading results as real numbers *)

(** The decimal expansion of [x] starts with [digits], [unit] being the
    weight of the last digit given. *)
Definition reads_as (digits unit : Q) (x : double) : Prop :=
  (digits <= to_Q x /\ to_Q x < digits + unit)%Q.

(** [x] and [y] differ by less than [eps]. *)
Definition within (eps : Q) (x y : double) : Prop :=
  (Qabs (to_Q x - to_Q y) < eps)%Q.

(** [x] is at less than [eps] from the inverse of the square root of 2,
    the sine of a quarter of pi. *)
Definition near_sin_pi_4 (eps : Q) (x : double) : Prop :=
  (eps < to_Q x
   /\ (to_Q x - eps) * (to_Q x - eps) < 1 # 2
   /\ 1 # 2 < (to_Q x + eps) * (to_Q x + eps))%Q.

(** The first quadratic scenario as the specification states it, and as the
    kernels compute it. *)
Definition scenario_as_stated (output : PairAPDoubleType) (golden : DoublePair)
    : Prop :=
  reads_as (3262 # 1000) (1 # 1000) (to_double (fst output))
  /\ reads_as (1837 # 1000) (1 # 1000) (to_double (snd output))
  /\ within (1 # 1000000) (to_double (fst output)) (fst golden)
  /\ within (1 # 1000000) (to_double (snd output)) (snd golden).

Definition scenario_as_computed (output : PairAPDoubleType)
    (golden : DoublePair) : Prop :=
  reads_as (32588 # 10000) (1 # 10000) (to_double (fst output))
  /\ reads_as (18411 # 10000) (1 # 10000) (to_double (snd output))
  /\ within (1 # 1000000) (to_double (fst output)) (fst golden)
  /\ within (1 # 1000000) (to_double (snd output)) (snd golden).

(** [main] of the tutorial: [passed] gathers the three tests; [o] gives the
    outcomes of the low-accuracy operations of the specialized kernel. *)
Definition ap_float_main (o : low_outcomes) : bool :=
  let passed := true in
  let passed := passed && TestSineApproximation in
  let passed := passed && TestAllConversionKernels in
  let passed := passed && TestQuadraticEquationSolverKernels o in
  passed.

(** ** Loops over an index *)

(** The values [0, 1, ..., n - 1] taken by [i] in
    [for (int i = 0; i < n; ++i)]; none when [n <= 0]. *)
Definition indices (n : Z) : list Z := map Z.of_nat (seq 0 (Z.to_nat n)).

Definition for_loop {S : Type} (n : Z) (body : S -> Z -> S) (s : S) : S :=
  fold_left body (indices n) s.

(** ** The vector additions of the annotated-argument samples *)

Module VectorAdd.

Import AnnotatedClassUtil.

(** A value of type [int]: 32 bits, two's complement. *)
Definition wrap_int (v : Z) : Z := (v + 2 ^ 31) mod 2 ^ 32 - 2 ^ 31.

Definition int_add (a b : Z) : Z := wrap_int (a + b).
Definition int_sub (a b : Z) : Z := wrap_int (a - b).
Definition int_mul (a b : Z) : Z := wrap_int (a * b).

(** The memory the arrays of [int] live in; an address counts elements. *)
Definition memory : Type := Z -> Z.

Definition load (m : memory) (p : annotated) (i : Z) : Z := m (get p + i).

Definition store (m : memory) (p : annotated) (i : Z) (v : Z) : memory :=
  fun q => if q =? get p + i then v else m q.


(** The kernel [DDRIP]: [z[i] = x[i] + y[i]] for [i < size]. *)
Record DDRIP : Type :=
  { x : annotated; y : annotated; z : annotated; size : Z }.

Definition DDRIP_call (k : DDRIP) (m : memory) : memory :=
  for_loop (size k)
    (fun m i => store m (z k) i (int_add (load m (x k) i) (load m (y k) i)))
    m.

(** The kernel [SimpleVAddKernel]. *)
Record SimpleVAddKernel : Type :=
  { a_in : annotated; b_in : annotated; c_out : annotated; len : Z }.

Definition SimpleVAddKernel_call (k : SimpleVAddKernel) (m : memory)
    : memory :=
  for_loop (len k)
    (fun m idx =>
       let a_val := load m (a_in k) idx in
       let b_val := load m (b_in k) idx in
       let sum := int_add a_val b_val in
       store m (c_out k) idx sum)
    m.

Definition kN : Z := 8.
Definition kVectorSize : Z := 256.

(** [main] of the [DDRIP] sample once its three arrays are allocated: the
    arrays are filled, the kernel runs, the result is compared with
    [3 * i]. *)
Definition ddrip_fill (array_a array_b : annotated) (m : memory) : memory :=
  for_loop kN
    (fun m i => store (store m array_a i i) array_b i (int_mul 2 i)) m.

Definition ddrip_verify (array_c : annotated) (m : memory) : bool :=
  for_loop kN
    (fun passed i =>
       let golden := int_mul 3 i in
       if negb (load m array_c i =? golden) then false else passed)
    true.

Definition ddrip_run (array_a array_b array_c : annotated) (m : memory)
    : bool * memory :=
  let m1 := ddrip_fill array_a array_b m in
  let m2 :=
    DDRIP_call {| x := array_a; y := array_b; z := array_c; size := kN |} m1 in
  (ddrip_verify array_c m2, m2).

(** [main] of the [SimpleVAdd] sample once its three arrays are allocated. *)
Definition vadd_fill (count : Z) (a b : annotated) (m : memory) : memory :=
  for_loop count
    (fun m i => store (store m a i i) b i (int_sub count i)) m.

Definition vadd_verify (count : Z) (a b c : annotated) (m : memory) : bool :=
  for_loop count
    (fun passed i =>
       let expected := int_add (load m a i) (load m b i) in
       if negb (load m c i =? expected) then false else passed)
    true.

Definition vadd_run (a b c : annotated) (m : memory) : bool * memory :=
  let count := kVectorSize in
  let m1 := vadd_fill count a b m in
  let m2 :=
    SimpleVAddKernel_call
      {| a_in := a; b_in := b; c_out := c; len := count |} m1 in
  (vadd_verify count a b c m2, m2).

Section Mains.

(** The SYCL runtime, as for [alloc_annotated]. *)
Variables queue world : Type.
Variable GetAlignFromPropList : properties_t -> Z.
Variable aligned_alloc_annotated :
  properties_t -> Z -> Z -> queue -> usm_alloc -> world -> annotated * world.




End Mains.

(** The elements [p[0 .. n - 1]] and [q[0 .. n - 1]] share no address. *)
Definition disjoint (n : Z) (p q : annotated) : Prop :=
  forall i j, 0 <= i < n -> 0 <= j < n -> get p + i <> get q + j.

(** A write to [dst[i]] never lands on an element of [src] that a later
    iteration reads. *)
Definition no_write_ahead (n : Z) (dst src : annotated) : Prop :=
  forall i j, 0 <= i < j -> j < n -> get dst + i <> get src + j.

End VectorAdd.

(** ** The weighted sums of the annotated-pointer sample *)

Module AnnotatedPtr.

Import AnnotatedClassUtil.

Definition ROWS : Z := 2.
Definition COLS : Z := 5.

(** Native [float] arithmetic. *)
Definition fadd : spec_float -> spec_float -> spec_float := SFadd 24 128.
Definition fmul : spec_float -> spec_float -> spec_float := SFmul 24 128.
Definition float_of_int (n : Z) : spec_float :=
  binary_normalize 24 128 n 0 false.

(** [x != y] on floats: true as soon as one side is NaN. *)
Definition fne (x y : spec_float) : bool := negb (SFeqb x y).

(** The memory the arrays of [float] live in. *)
Definition memory : Type := Z -> spec_float.

Definition load (m : memory) (p : pointer) (j : Z) : spec_float := m (p + j).

Definition store (m : memory) (p : pointer) (i : Z) (v : spec_float)
    : memory :=
  fun q => if q =? p + i then v else m q.

(** The inner loop: [sum += data[j] * mul[j]] for [j < COLS], from
    [0.0f]. *)
Definition weighted_sum (m : memory) (data mul : pointer) : spec_float :=
  for_loop COLS
    (fun sum j => fadd sum (fmul (load m data j) (load m mul j)))
    (S754_zero false).

Record pipeWithAnnotatedPtr : Type :=
  { result : annotated; mul : annotated }.

(** The kernel: each row pointer is read from the pipe; [None] when the
    pipe has no pointer left, where the read never returns. *)
Fixpoint kernel_rows (k : pipeWithAnnotatedPtr) (rows : list Z)
    (pipe : list pointer) (m : memory) : option (list pointer * memory) :=
  match rows with
  | [] => Some (pipe, m)
  | i :: rows' =>
      match pipe with
      | [] => None
      | p :: pipe' =>
          let sum := weighted_sum m p (get (mul k)) in
          kernel_rows k rows' pipe' (store m (get (result k)) i sum)
      end
  end.

Definition pipeWithAnnotatedPtr_call (k : pipeWithAnnotatedPtr)
    (pipe : list pointer) (m : memory) : option (list pointer * memory) :=
  kernel_rows k (indices ROWS) pipe m.

(** The host: the expected sums, the kernel fed with the row pointers, the
    comparison. *)
Definition expected_sums (testDataArray : list pointer) (mul : pointer)
    (m : memory) : list spec_float :=
  map (fun row => weighted_sum m row mul) testDataArray.

Definition verify (returnData : pointer) (expected : list spec_float)
    (m : memory) : bool :=
  for_loop ROWS
    (fun success i =>
       if fne (load m returnData i) (nth (Z.to_nat i) expected S754_nan)
       then false else success)
    true.

Definition host_run (testDataArray : list pointer) (mul returnData : pointer)
    (m : memory) : option bool :=
  let expected := expected_sums testDataArray mul m in
  let k :=
    {| result := {| get := returnData; props := [buffer_location 1] |};
       mul := {| get := mul; props := [buffer_location 2] |} |} in
  match pipeWithAnnotatedPtr_call k testDataArray m with
  | None => None
  | Some (_, m') => Some (verify returnData expected m')
  end.

(** A float that is neither NaN nor negative, and one that is moreover
    finite, as the [rand() % 10] of the host gives. *)
Definition nonneg (v : spec_float) : bool :=
  match v with
  | S754_nan => false
  | S754_zero s | S754_infinity s | S754_finite s _ _ => negb s
  end.

Definition finite_nonneg (v : spec_float) : bool :=
  match v with
  | S754_zero s | S754_finite s _ _ => negb s
  | _ => false
  end.

End AnnotatedPtr.

(** * Properties *)

(** ** Comparisons of doubles *)

Module DoubleFacts.

Lemma compare_cont_antisym (m1 m2 : positive) :
  Pos.compare_cont Eq m2 m1 = CompOpp (Pos.compare_cont Eq m1 m2).
Proof. exact (Pos.compare_antisym m1 m2). Qed.

(** Swapping the operands of a comparison reverses its answer. *)
Lemma SFcompare_antisym (x y : spec_float) :
  SFcompare y x = option_map CompOpp (SFcompare x y).
Proof.
  destruct x as [sx|sx| |sx mx ex], y as [sy|sy| |sy my ey]; simpl;
    try reflexivity;
    try (destruct sx; reflexivity);
    try (destruct sy; reflexivity);
    try (destruct sx, sy; reflexivity).
  destruct sx, sy; simpl; try reflexivity;
    rewrite (Z.compare_antisym ex ey);
    destruct (ex ?= ey); simpl; try reflexivity;
    rewrite compare_cont_antisym;
    destruct (Pos.compare_cont Eq mx my); reflexivity.
Qed.

Lemma lt_not_gt (x y : double) : (x <? y)%double = true -> (x >? y)%double = false.
Proof.
  unfold Double.lt, Double.gt, SFltb. rewrite (SFcompare_antisym x y).
  destruct (SFcompare x y) as [[ | | ]|]; simpl; congruence.
Qed.

Lemma ge_not_lt (x y : double) : (x >=? y)%double = true -> (x <? y)%double = false.
Proof.
  unfold Double.lt, Double.ge, SFltb, SFleb. rewrite (SFcompare_antisym x y).
  destruct (SFcompare x y) as [[ | | ]|]; simpl; congruence.
Qed.

(** Two numbers, neither of them NaN, are always ordered. *)
Lemma SFcompare_total (x y : spec_float) :
  isnan x = false -> isnan y = false -> exists c, SFcompare x y = Some c.
Proof.
  destruct x, y; simpl; try discriminate; intros _ _; eexists; reflexivity.
Qed.

Lemma not_lt_ge (x y : double) :
  isnan x = false -> isnan y = false ->
  (x <? y)%double = false -> (x >=? y)%double = true.
Proof.
  intros Hx Hy. unfold Double.lt, Double.ge, SFltb, SFleb.
  rewrite (SFcompare_antisym x y).
  destruct (SFcompare_total x y Hx Hy) as [c ->].
  destruct c; simpl; congruence.
Qed.

Lemma d1e_20_eq : d1e_20 = S754_finite false 6646139978924579 (-119).
Proof. vm_compute. reflexivity. Qed.

Lemma not_gt_not_zero_lt (x : double) :
  isnan x = false -> (x >? d0_0)%double = false ->
  (fabs x <? d1e_20)%double = false -> (x <? d0_0)%double = true.
Proof.
  rewrite d1e_20_eq.
  unfold Double.gt, Double.lt, fabs, d0_0, zero, SFltb.
  destruct x as [s|s| |s m e]; cbn [isnan SFabs SFcompare];
    try discriminate; intros _.
  - destruct s; [reflexivity | discriminate].
  - destruct s; [reflexivity | discriminate].
Qed.

Lemma isnan_fabs (x : double) : isnan (fabs x) = isnan x.
Proof. destruct x; reflexivity. Qed.

End DoubleFacts.

(** ** The reference solver *)

(** C1. [quadratic_gold] computes the discriminant [d = b*b - 4*a*c]; when
    [d > 0] or [|d| < 1e-20] it returns the two roots
    [(-b + sqrt |d|) / (2a)] and [(-b - sqrt |d|) / (2a)], and otherwise the
    pair (NaN, NaN).  A negative discriminant with [|d| >= 1e-20] is such an
    otherwise, and it is the only one apart from a NaN discriminant. *)
Theorem quadratic_gold_spec (a b c : double) :
  let d := QuadraticSpec.discriminant a b c in
  quadratic_gold a b c = QuadraticSpec.solve a b c
  /\ (QuadraticSpec.has_real_roots d = true ->
      quadratic_gold a b c = QuadraticSpec.roots a b d)
  /\ (QuadraticSpec.has_real_roots d = false ->
      quadratic_gold a b c = (NAN, NAN))
  /\ ((d <? d0_0)%double = true -> (fabs d >=? d1e_20)%double = true ->
      quadratic_gold a b c = (NAN, NAN))
  /\ (QuadraticSpec.has_real_roots d = false -> isnan d = false ->
      (d <? d0_0)%double = true /\ (fabs d >=? d1e_20)%double = true).
Proof.
  intros d.
  assert (Hsolve : quadratic_gold a b c = QuadraticSpec.solve a b c)
    by reflexivity.
  assert (Hreal : QuadraticSpec.has_real_roots d = true ->
                  quadratic_gold a b c = QuadraticSpec.roots a b d).
  { intros H. rewrite Hsolve. unfold QuadraticSpec.solve. fold d.
    rewrite H. reflexivity. }
  assert (Hnan : QuadraticSpec.has_real_roots d = false ->
                 quadratic_gold a b c = (NAN, NAN)).
  { intros H. rewrite Hsolve. unfold QuadraticSpec.solve. fold d.
    rewrite H. reflexivity. }
  repeat split; auto.
  - intros Hneg Hbig. apply Hnan. unfold QuadraticSpec.has_real_roots.
    rewrite (DoubleFacts.lt_not_gt _ _ Hneg), (DoubleFacts.ge_not_lt _ _ Hbig).
    reflexivity.
  - apply orb_false_iff in H. destruct H as [Hgt Hlt].
    apply DoubleFacts.not_gt_not_zero_lt; assumption.
  - apply orb_false_iff in H. destruct H as [Hgt Hlt].
    apply DoubleFacts.not_lt_ge; trivial.
    rewrite DoubleFacts.isnan_fabs. assumption.
Qed.

Lemma quadratic_gold_spec_witness :
  quadratic_gold d1_0 d2_0 d4_0 = (NAN, NAN)
  /\ quadratic_gold d1_0 (literal true 51 1) d6_0
     = QuadraticSpec.roots d1_0 (literal true 51 1)
         (QuadraticSpec.discriminant d1_0 (literal true 51 1) d6_0).
Proof.
  split.
  - refine (proj1 (proj2 (proj2 (proj2
              (quadratic_gold_spec d1_0 d2_0 d4_0)))) _ _);
      vm_compute; reflexivity.
  - refine (proj1 (proj2
              (quadratic_gold_spec d1_0 (literal true 51 1) d6_0)) _).
    vm_compute; reflexivity.
Defined.

(** ** The rounding policy *)

Module ApFloatFacts.

Lemma layout_eqb_refl (L : BitLayout) : layout_eqb L L = true.
Proof. unfold layout_eqb. rewrite !Z.eqb_refl. reflexivity. Qed.

Lemma layout_eqb_eq (L1 L2 : BitLayout) : layout_eqb L1 L2 = true -> L1 = L2.
Proof.
  destruct L1, L2. unfold layout_eqb. cbn [E M]. intros H.
  apply andb_true_iff in H. destruct H as [H1 H2].
  apply Z.eqb_eq in H1, H2. congruence.
Qed.

(** The smallest subnormal exponent of section 4.1 is the [emin] of the
    rounding functions. *)
Lemma emin_layout (L : BitLayout) :
  emin (prec L) (emax L) = smallest_subnormal_exponent L.
Proof.
  unfold emin, prec, emax, smallest_subnormal_exponent. lia.
Qed.

Lemma round_mantissa_exact (d : direction) (m : Z) :
  round_mantissa d m loc_Exact = m.
Proof. destruct d; reflexivity. Qed.

(** A number already representable in [L] is rounded to itself, whatever
    the direction. *)
Lemma round_exact_bounded (L : BitLayout) (d : direction) (s : bool)
    (m : positive) (e : Z) :
  bounded (prec L) (emax L) m e = true ->
  round_exact L d On s m e = S754_finite s m e.
Proof.
  unfold bounded, canonical_mantissa. intros H.
  apply andb_true_iff in H. destruct H as [Hc Hb].
  apply Z.eqb_eq in Hc.
  unfold round_exact. rewrite Hc.
  unfold shl_align. rewrite Z.sub_diag.
  unfold round_in, shr_fexp. cbn [Zdigits2 shr_record_of_loc].
  rewrite Hc, Z.sub_diag. cbn [shr shr_m loc_of_shr_record].
  rewrite round_mantissa_exact. cbn [Zdigits2 shr_record_of_loc].
  rewrite Hc, Z.sub_diag. cbn [shr shr_m].
  rewrite Hb. reflexivity.
Qed.

Lemma round_valid (L : BitLayout) (m : RoundingMode) (v : spec_float) :
  valid_binary (prec L) (emax L) v = true -> round v L m = v.
Proof.
  destruct v as [s|s| |s mx ex]; try reflexivity.
  cbn [valid_binary round]. apply round_exact_bounded.
Qed.

End ApFloatFacts.

(** C5. A finite double converted into the layout (E = 11, M = 52) with
    RoundNearestEven by [from_native] and back by [to_double] is unchanged. *)
Theorem from_native_to_double_roundtrip (x : double) :
  valid_binary Double.prec Double.emax x = true ->
  is_finite x = true ->
  to_double (from_native x binary64 RoundNearestEven) = x.
Proof.
  intros Hv _. unfold to_double, from_native. cbn [value].
  change (valid_binary (ApFloat.prec binary64) (ApFloat.emax binary64) x = true)
    in Hv.
  rewrite !(ApFloatFacts.round_valid _ _ _ Hv). reflexivity.
Qed.

Lemma from_native_to_double_roundtrip_witness :
  to_double (from_native M_PI_4 binary64 RoundNearestEven) = M_PI_4.
Proof.
  apply from_native_to_double_roundtrip; vm_compute; reflexivity.
Defined.

(** ** Special values and mixed layouts *)

Module OpsFacts.

(** Rounding to another layout keeps NaN, the infinities and the zeros. *)
Lemma round_special (v : spec_float) (L : BitLayout) (m : RoundingMode) :
  finite_value v = false -> round v L m = v.
Proof. destruct v; [reflexivity .. | discriminate]. Qed.

Lemma value_to_layout_special (W : BitLayout) (x : ConfigurableFloat) :
  finite_value (value x) = false -> value (to_layout W x) = value x.
Proof.
  intros H. unfold to_layout. destruct (layout_eqb (layout x) W).
  - reflexivity.
  - cbn [convert value]. apply round_special, H.
Qed.

Lemma layout_to_layout (W : BitLayout) (x : ConfigurableFloat) :
  layout (to_layout W x) = W.
Proof.
  unfold to_layout. destruct (layout_eqb (layout x) W) eqn:H.
  - apply ApFloatFacts.layout_eqb_eq, H.
  - reflexivity.
Qed.

Lemma to_layout_same (x : ConfigurableFloat) : to_layout (layout x) x = x.
Proof. unfold to_layout. rewrite ApFloatFacts.layout_eqb_refl. reflexivity. Qed.

Lemma to_layout_convert (W : BitLayout) (x : ConfigurableFloat)
    (m : RoundingMode) :
  to_layout W (convert x W m) = convert x W m.
Proof.
  unfold to_layout. cbn [convert layout].
  rewrite ApFloatFacts.layout_eqb_refl. reflexivity.
Qed.

Lemma dominates_spec (L1 L2 : BitLayout) :
  dominates L1 L2 = true <->
  E L2 < E L1 \/ (E L1 = E L2 /\ M L2 < M L1).
Proof.
  unfold dominates.
  rewrite orb_true_iff, andb_true_iff, !Z.ltb_lt, Z.eqb_eq. reflexivity.
Qed.

Lemma dominates_total (L1 L2 : BitLayout) :
  layout_eqb L1 L2 = false -> dominates L2 L1 = negb (dominates L1 L2).
Proof.
  unfold layout_eqb, dominates. intros H.
  destruct (E L1 =? E L2) eqn:He.
  - apply Z.eqb_eq in He. rewrite <- He, Z.eqb_refl, Z.ltb_irrefl.
    cbn [andb orb] in *. apply Z.eqb_neq in H.
    destruct (M L1 <? M L2) eqn:H1, (M L2 <? M L1) eqn:H2;
      try reflexivity;
      rewrite ?Z.ltb_lt, ?Z.ltb_ge in *; lia.
  - apply Z.eqb_neq in He.
    assert (He' : (E L2 =? E L1) = false) by (apply Z.eqb_neq; lia).
    rewrite He'. cbn [andb]. rewrite !orb_false_r.
    destruct (E L1 <? E L2) eqn:H1, (E L2 <? E L1) eqn:H2;
      try reflexivity;
      rewrite ?Z.ltb_lt, ?Z.ltb_ge in *; lia.
Qed.

(** What an operator computes once the dominant operand is known. *)
Lemma binary_operator_dominant
    (f : BitLayout -> AccuracyTier -> SubnormalMode ->
         ConfigurableFloat -> ConfigurableFloat -> ConfigurableFloat)
    (x y : ConfigurableFloat) :
  layout_eqb (layout x) (layout y) = false ->
  dominates (layout x) (layout y) = true ->
  binary_operator f x y
  = f (layout x) High Off x (convert y (layout x) (promotion_mode y)).
Proof.
  intros Hne Hd. unfold binary_operator, promote. rewrite Hne, Hd.
  unfold to_layout.
  assert (H : layout_eqb (layout y) (layout x) = false).
  { destruct (layout_eqb (layout y) (layout x)) eqn:H; [|reflexivity].
    apply ApFloatFacts.layout_eqb_eq in H. rewrite H in Hne.
    rewrite ApFloatFacts.layout_eqb_refl in Hne. discriminate. }
  rewrite H. reflexivity.
Qed.

Lemma binary_operator_dominated
    (f : BitLayout -> AccuracyTier -> SubnormalMode ->
         ConfigurableFloat -> ConfigurableFloat -> ConfigurableFloat)
    (x y : ConfigurableFloat) :
  layout_eqb (layout x) (layout y) = false ->
  dominates (layout x) (layout y) = false ->
  binary_operator f x y
  = f (layout y) High Off (convert x (layout y) (promotion_mode x)) y.
Proof.
  intros Hne Hd. unfold binary_operator, promote. rewrite Hne, Hd.
  unfold to_layout. rewrite Hne. reflexivity.
Qed.

End OpsFacts.

(** C6. In every arithmetic operation a NaN operand gives a NaN result, and
    so do infinity minus infinity, zero times infinity, zero over zero and
    infinity over infinity; whatever the working layout, the accuracy tier
    and the subnormal mode. *)
Theorem nan_propagation (W : BitLayout) (t : AccuracyTier) (s : SubnormalMode)
    (x y : ConfigurableFloat) :
  (is_nan x = true \/ is_nan y = true ->
     is_nan (add W t s x y) = true /\ is_nan (ApFloat.sub W t s x y) = true
     /\ is_nan (mul W t s x y) = true /\ is_nan (ApFloat.div W t s x y) = true)
  /\ (is_nan x = true -> is_nan (ApFloat.sqrt t s x) = true)
  /\ (is_infinite x = true -> is_infinite y = true -> sign_of x = sign_of y ->
      is_nan (ApFloat.sub W t s x y) = true)
  /\ (is_zero x = true -> is_infinite y = true ->
      is_nan (mul W t s x y) = true /\ is_nan (mul W t s y x) = true)
  /\ (is_zero x = true -> is_zero y = true ->
      is_nan (ApFloat.div W t s x y) = true)
  /\ (is_infinite x = true -> is_infinite y = true ->
      is_nan (ApFloat.div W t s x y) = true).
Proof.
  unfold is_nan, is_infinite, is_zero, sign_of, add, ApFloat.sub, mul,
    ApFloat.div, ApFloat.sqrt, result.
  cbn [value].
  assert (Hnan : forall z, value z = S754_nan ->
                           value (to_layout W z) = S754_nan).
  { intros z Hz. rewrite OpsFacts.value_to_layout_special; rewrite Hz;
      reflexivity. }
  assert (Hinf : forall z sz, value z = S754_infinity sz ->
                              value (to_layout W z) = S754_infinity sz).
  { intros z sz Hz. rewrite OpsFacts.value_to_layout_special; rewrite Hz;
      reflexivity. }
  assert (Hzero : forall z sz, value z = S754_zero sz ->
                               value (to_layout W z) = S754_zero sz).
  { intros z sz Hz. rewrite OpsFacts.value_to_layout_special; rewrite Hz;
      reflexivity. }
  split; [intros [H|H] | repeat apply conj].
  - destruct (value x) eqn:Hx; try discriminate H.
    rewrite (Hnan x Hx). repeat split.
  - destruct (value y) eqn:Hy; try discriminate H.
    rewrite (Hnan y Hy).
    repeat split; try (destruct (value (to_layout W x)); reflexivity).
    destruct (value x); reflexivity.
  - destruct (value x); intros H; try discriminate H. reflexivity.
  - destruct (value x) as [ |sx| | ] eqn:Hx; intros H; try discriminate H.
    destruct (value y) as [ |sy| | ] eqn:Hy; intros H0; try discriminate H0.
    intros Hs. rewrite (Hinf x sx Hx), (Hinf y sy Hy). subst sy.
    destruct sx; reflexivity.
  - destruct (value x) as [sx| | | ]; intros H; try discriminate H.
    destruct (value y) as [ |sy| | ]; intros H0; try discriminate H0.
    split; reflexivity.
  - destruct (value x) as [sx| | | ] eqn:Hx; intros H; try discriminate H.
    destruct (value y) as [sy| | | ] eqn:Hy; intros H0; try discriminate H0.
    rewrite (Hzero x sx Hx), (Hzero y sy Hy). reflexivity.
  - destruct (value x) as [ |sx| | ] eqn:Hx; intros H; try discriminate H.
    destruct (value y) as [ |sy| | ] eqn:Hy; intros H0; try discriminate H0.
    rewrite (Hinf x sx Hx), (Hinf y sy Hy). reflexivity.
Qed.

Lemma nan_propagation_witness :
  let L := {| E := 4; M := 3 |} in
  let qnan := nan L in
  let inf := result L (S754_infinity false) in
  let zero := result L (S754_zero true) in
  let one := from_native d1_0 L RoundNearestEven in
  is_nan (add binary32 High Off qnan one) = true
  /\ is_nan (ApFloat.div binary32 (Low true) On one qnan) = true
  /\ is_nan (ApFloat.sqrt High On qnan) = true
  /\ is_nan (ApFloat.sub L High Off inf inf) = true
  /\ is_nan (mul binary64 (Low false) Off zero inf) = true
  /\ is_nan (ApFloat.div L High On zero zero) = true
  /\ is_nan (ApFloat.div L High On inf inf) = true.
Proof.
  intros L qnan inf zero one.
  repeat apply conj.
  - refine (proj1 (proj1 (nan_propagation binary32 High Off qnan one) _)).
    left; reflexivity.
  - refine (proj2 (proj2 (proj2
              (proj1 (nan_propagation binary32 (Low true) On one qnan) _)))).
    right; reflexivity.
  - refine (proj1 (proj2 (nan_propagation L High On qnan qnan)) _).
    reflexivity.
  - refine (proj1 (proj2 (proj2 (nan_propagation L High Off inf inf))) _ _ _);
      reflexivity.
  - refine (proj1 (proj1 (proj2 (proj2 (proj2
              (nan_propagation binary64 (Low false) Off zero inf)))) _ _));
      reflexivity.
  - refine (proj1 (proj2 (proj2 (proj2 (proj2
              (nan_propagation L High On zero zero))))) _ _); reflexivity.
  - refine (proj2 (proj2 (proj2 (proj2 (proj2
              (nan_propagation L High On inf inf))))) _ _); reflexivity.
Defined.

(** C7. In a mixed-layout [+], [-] or [/] the operand whose layout has the
    larger E (the larger M when the E are equal) is dominant; the other one
    is converted to the dominant layout with RoundNearestEven, or with
    RoundTowardZero when its own rounding mode is RoundTowardZero; the
    operation is then done in the dominant layout. *)
Theorem promotion_rule (x y : ConfigurableFloat) :
  layout_eqb (layout x) (layout y) = false ->
  let promoted (z : ConfigurableFloat) (W : BitLayout) :=
    convert z W
      match mode z with
      | RoundTowardZero => RoundTowardZero
      | RoundNearestEven => RoundNearestEven
      end in
  (dominates (layout x) (layout y) = true <->
   E (layout y) < E (layout x)
   \/ (E (layout x) = E (layout y) /\ M (layout y) < M (layout x)))
  /\ dominates (layout y) (layout x) = negb (dominates (layout x) (layout y))
  /\ (dominates (layout x) (layout y) = true ->
      let W := layout x in
      (x + y)%ap = add W High Off x (promoted y W)
      /\ (x - y)%ap = ApFloat.sub W High Off x (promoted y W)
      /\ (x / y)%ap = ApFloat.div W High Off x (promoted y W)
      /\ value (x + y)%ap
         = add_value W High Off (value x) (value (promoted y W)))
  /\ (dominates (layout y) (layout x) = true ->
      let W := layout y in
      (x + y)%ap = add W High Off (promoted x W) y
      /\ (x - y)%ap = ApFloat.sub W High Off (promoted x W) y
      /\ (x / y)%ap = ApFloat.div W High Off (promoted x W) y
      /\ value (x + y)%ap
         = add_value W High Off (value (promoted x W)) (value y)).
Proof.
  intros Hne promoted.
  split; [apply OpsFacts.dominates_spec|].
  split; [apply OpsFacts.dominates_total, Hne|].
  split.
  - intros Hd W. unfold op_add, op_sub, op_div.
    rewrite !(OpsFacts.binary_operator_dominant _ x y Hne Hd).
    repeat split.
    subst W promoted. cbv beta. unfold add. cbn [value result].
    rewrite OpsFacts.to_layout_same.
    change (convert y (layout x) (promotion_mode y))
      with (convert y (layout x)
              match mode y with
              | RoundTowardZero => RoundTowardZero
              | RoundNearestEven => RoundNearestEven
              end).
    rewrite OpsFacts.to_layout_convert. reflexivity.
  - intros Hd W.
    assert (Hd' : dominates (layout x) (layout y) = false).
    { rewrite (OpsFacts.dominates_total _ _ Hne) in Hd.
      destruct (dominates (layout x) (layout y)); [discriminate|reflexivity]. }
    unfold op_add, op_sub, op_div.
    rewrite !(OpsFacts.binary_operator_dominated _ x y Hne Hd').
    repeat split.
    subst W promoted. cbv beta. unfold add. cbn [value result].
    rewrite OpsFacts.to_layout_same.
    change (convert x (layout y) (promotion_mode x))
      with (convert x (layout y)
              match mode x with
              | RoundTowardZero => RoundTowardZero
              | RoundNearestEven => RoundNearestEven
              end).
    rewrite OpsFacts.to_layout_convert. reflexivity.
Qed.

(** Two operands on which the two promotion modes differ: the dominant one
    is -1 in the layout (5, 2), the other one is 1.1875 in the layout (4, 4),
    between 1 and 1.25, its neighbours in (5, 2): 1.1875 goes to 1.25 to
    the nearest and to 1 toward zero, and the sums are 0.25 and 0. *)
Lemma promotion_rule_witness :
  let big := from_native (of_int (-1)) {| E := 5; M := 2 |} RoundNearestEven in
  let v := S754_finite false 19 (-4) in
  let small_rne :=
    {| layout := {| E := 4; M := 4 |}; mode := RoundNearestEven; value := v |} in
  let small_rz :=
    {| layout := {| E := 4; M := 4 |}; mode := RoundTowardZero; value := v |} in
  value (big + small_rne)%ap = S754_finite false 4 (-4)
  /\ value (big + small_rz)%ap = S754_zero false
  /\ value (convert small_rne (layout big) RoundNearestEven)
     = S754_finite false 5 (-2)
  /\ value (convert small_rz (layout big) RoundTowardZero)
     = S754_finite false 4 (-2).
Proof.
  intros big v small_rne small_rz.
  assert (Hrne := promotion_rule big small_rne eq_refl).
  assert (Hrz := promotion_rule big small_rz eq_refl).
  cbv zeta in Hrne, Hrz.
  destruct Hrne as (_ & _ & Hrne & _), Hrz as (_ & _ & Hrz & _).
  destruct (Hrne eq_refl) as (_ & _ & _ & ->).
  destruct (Hrz eq_refl) as (_ & _ & _ & ->).
  repeat split.
Defined.

(** C8. The explicit multiplication takes operands of any layouts as they
    are: its result has the requested layout [W], and for finite operands
    it is the exact product of the two unconverted operands (the product of
    the mantissas, the sum of the exponents) rounded once into [W]; this is
    not what rounding the operands to [W] first gives, as [add], [sub] and
    [div] do. *)
Theorem mul_leaves_operands_intact (W : BitLayout) (t : AccuracyTier)
    (s : SubnormalMode) :
  (forall x y, layout (mul W t s x y) = W)
  /\ (forall x y sx mx ex sy my ey,
        value x = S754_finite sx mx ex -> value y = S754_finite sy my ey ->
        value (mul W t s x y)
        = round_exact W (tier_direction t) s (xorb sx sy) (mx * my) (ex + ey))
  /\ (forall x y,
        value (add W t s x y)
        = add_value W t s (value (to_layout W x)) (value (to_layout W y)))
  /\ (exists W' x y,
        mul W' High On x y <> mul W' High On (to_layout W' x) (to_layout W' y)).
Proof.
  split; [reflexivity|].
  split.
  { intros x y sx mx ex sy my ey Hx Hy. unfold mul. cbn [value result].
    rewrite Hx, Hy. reflexivity. }
  split; [reflexivity|].
  exists {| E := 5; M := 2 |}.
  exists {| layout := {| E := 4; M := 4 |}; mode := RoundNearestEven;
            value := S754_finite false 18 (-4) |}.
  exists {| layout := {| E := 4; M := 4 |}; mode := RoundNearestEven;
            value := S754_finite false 18 (-4) |}.
  intros H. vm_compute in H. discriminate H.
Qed.

(** The square of the specialized kernel, for [b = -5.1f]: the two binary32
    operands give their exact 47-bit product in binary64. *)
Lemma mul_leaves_operands_intact_witness :
  let b := construct APFloatType (to_float (literal true 51 1)) in
  value (mul binary64 (Low true) Off b b)
  = S754_finite false (64 * (10695475 * 10695475)) (-21 + -21 - 6).
Proof.
  intros b.
  rewrite (proj1 (proj2 (mul_leaves_operands_intact binary64 (Low true) Off))
             b b true 10695475%positive (-21) true 10695475%positive (-21)
             eq_refl eq_refl).
  vm_compute. reflexivity.
Defined.

(** ** The quadratic solvers *)

Ltac decide_Q :=
  vm_compute;
  first [ reflexivity | intro; discriminate ].

(** C2. For a = 1, b = 2, c = 4 the discriminant is -12 and both roots are
    NaN: in the reference solver, in the simple kernel and in the
    specialized kernel whatever its low-accuracy operations do; the NaN test
    of the driver then leaves [passed] as it is. *)
Theorem quadratic_nan_case :
  let A := to_float d1_0 in
  let B := to_float d2_0 in
  let C := to_float d4_0 in
  QuadraticSpec.discriminant d1_0 d2_0 d4_0 = of_int (-12)
  /\ quadratic_gold d1_0 d2_0 d4_0 = (NAN, NAN)
  /\ value (simple_rooted A B C) = of_int (-12)
  /\ TestSimpleQuadraticEqnSolver A B C = (nan binary64, nan binary64)
  /\ (forall passed,
        nan_check passed (TestSimpleQuadraticEqnSolver A B C) = passed)
  /\ (forall o,
        value (specialized_rooted o A B C) = of_int (-12)
        /\ TestSpecializedQuadraticEqnSolver o A B C
           = (nan binary64, nan binary64)
        /\ forall passed,
             nan_check passed (TestSpecializedQuadraticEqnSolver o A B C)
             = passed).
Proof.
  intros A B C.
  do 5 (split; [first [ intros []; vm_compute; reflexivity
                          | vm_compute; reflexivity ] | ]).
  intros [[] [] [] [] []];
    (split; [|split]);
    first [ intros []; vm_compute; reflexivity | vm_compute; reflexivity ].
Qed.

(** C3, as the code has it.  For a = 1, b = -5.1, c = 6 the two roots of
    either kernel read 3.2588... and 1.8411..., and each is within 1e-6 of
    the root [quadratic_gold] returns; the driver's test of the tolerance
    keeps [passed]. *)
Theorem quadratic_scenario :
  let a := d1_0 in
  let b := literal true 51 1 in
  let c := d6_0 in
  let golden := quadratic_gold a b c in
  let simple :=
    TestSimpleQuadraticEqnSolver (to_float a) (to_float b) (to_float c) in
  scenario_as_computed simple golden
  /\ tolerance_check true simple golden = true
  /\ (forall o,
        let specialized :=
          TestSpecializedQuadraticEqnSolver o
            (to_float a) (to_float b) (to_float c) in
        scenario_as_computed specialized golden
        /\ tolerance_check true specialized golden = true).
Proof.
  intros a b c golden simple.
  unfold scenario_as_computed, reads_as, within.
  split; [repeat apply conj; decide_Q|].
  split; [decide_Q|].
  intros [[] [] [] [] []]; cbv zeta; repeat apply conj; decide_Q.
Qed.

(** C3, as stated, fails: the first root of the simple kernel does not read
    3.262... *)
Lemma quadratic_scenario_not_as_stated :
  ~ scenario_as_stated
      (TestSimpleQuadraticEqnSolver
         (to_float d1_0) (to_float (literal true 51 1)) (to_float d6_0))
      (quadratic_gold d1_0 (literal true 51 1) d6_0).
Proof.
  intros [[H _] _]. vm_compute in H. apply H. reflexivity.
Qed.

(** ** The sine approximation *)

(** Over the rationals the kernel is the sum of the first ten terms of the
    Taylor series. *)
Lemma sine_kernel_taylor (x : Q) :
  (SineApproximationKernel (A := exact_arith) x == taylor_sine 10 x)%Q.
Proof.
  unfold SineApproximationKernel, kSineApproximateTermsCount.
  cbn -[Qplus Qmult Qdiv Qopp Qpower inject_Z].
  field. intros H. vm_compute in H. discriminate H.
Qed.

(** C4. The kernel sums the ten terms x, -x^3/3!, ..., -x^19/19! of the
    Taylor series; at pi/4 its result in native double precision and its
    result in [ap_float<11, 44>] with RoundTowardZero are both at less than
    1e-13 from the expected value, in the test of the driver and as real
    numbers, from [M_SQRT1_2] and from the inverse of the square root
    of 2. *)
Theorem sine_approximation_accuracy :
  let r := sine_report_of M_PI_4 M_SQRT1_2 in
  (forall x : Q,
     (SineApproximationKernel (A := exact_arith) x == taylor_sine 10 x)%Q)
  /\ layout (ap_float_result r) = {| E := 11; M := 44 |}
  /\ passed_native r = true
  /\ passed_non_native r = true
  /\ TestSineApproximation = true
  /\ within (1 # 10 ^ 13) (double_result r) M_SQRT1_2
  /\ within (1 # 10 ^ 13) (to_double (ap_float_result r)) M_SQRT1_2
  /\ near_sin_pi_4 (1 # 10 ^ 13) (double_result r)
  /\ near_sin_pi_4 (1 # 10 ^ 13) (to_double (ap_float_result r)).
Proof.
  intros r. split; [exact sine_kernel_taylor|].
  unfold within, near_sin_pi_4.
  repeat apply conj; decide_Q.
Qed.

(** ** The tolerance test of the quadratic driver *)

(** C10. When the two computed roots and the two golden roots of a test
    vector are NaN, both differences are NaN, neither exceeds the tolerance,
    and the check leaves [passed] unchanged. *)
Theorem nan_roots_pass_tolerance_check (passed : bool)
    (output : PairAPDoubleType) (golden : DoublePair) :
  is_nan (fst output) = true -> is_nan (snd output) = true ->
  isnan (fst golden) = true -> isnan (snd golden) = true ->
  let diff_root1 := fabs (to_double (fst output) - fst golden)%double in
  let diff_root2 := fabs (to_double (snd output) - snd golden)%double in
  isnan diff_root1 = true /\ isnan diff_root2 = true
  /\ (diff_root1 >? kQuadraticEqnEpsilon)%double = false
  /\ (diff_root2 >? kQuadraticEqnEpsilon)%double = false
  /\ tolerance_check passed output golden = passed.
Proof.
  destruct output as [[L1 m1 v1] [L2 m2 v2]], golden as [g1 g2].
  unfold is_nan, tolerance_check, to_double. cbn [fst snd value].
  destruct v1; try discriminate. destruct v2; try discriminate.
  destruct g1; try discriminate. destruct g2; try discriminate.
  intros _ _ _ _. repeat split.
Qed.

Lemma nan_roots_pass_tolerance_check_witness :
  tolerance_check true
    (TestSimpleQuadraticEqnSolver (to_float d1_0) (to_float d2_0)
       (to_float d4_0))
    (quadratic_gold d1_0 d2_0 d4_0) = true.
Proof.
  apply nan_roots_pass_tolerance_check; vm_compute; reflexivity.
Defined.

(** ** Allocation of annotated arguments *)

(** C9. [alloc_annotated] never hands a null pointer back: either the
    allocation gave a pointer that is not null and the result wraps that
    very pointer, with the property list of the requested type, or the
    allocation gave null and the program is terminated after the message on
    [std::cerr]. *)
Theorem alloc_annotated_never_null (queue world : Type)
    (GetAlignFromPropList : AnnotatedClassUtil.properties_t -> Z)
    (aligned_alloc_annotated :
       AnnotatedClassUtil.properties_t -> Z -> Z -> queue ->
       AnnotatedClassUtil.usm_alloc -> world ->
       AnnotatedClassUtil.annotated * world)
    (T : AnnotatedClassUtil.properties_t) (count : Z) (syclQueue : queue)
    (usmKind : AnnotatedClassUtil.usm_alloc) (w : world) :
  let allocated :=
    aligned_alloc_annotated (AnnotatedClassUtil.remove_align_from T)
      (GetAlignFromPropList T) count syclQueue usmKind w in
  match
    AnnotatedClassUtil.alloc_annotated queue world GetAlignFromPropList
      aligned_alloc_annotated T count syclQueue usmKind w
  with
  | AnnotatedClassUtil.Returned a w' =>
      AnnotatedClassUtil.get a <> AnnotatedClassUtil.nullptr
      /\ AnnotatedClassUtil.get a = AnnotatedClassUtil.get (fst allocated)
      /\ AnnotatedClassUtil.props a = T
      /\ w' = snd allocated
  | AnnotatedClassUtil.Terminated cerr w' =>
      AnnotatedClassUtil.get (fst allocated) = AnnotatedClassUtil.nullptr
      /\ cerr = ["Memory allocation returns null"%string]
      /\ w' = snd allocated
  end.
Proof.
  intros allocated. unfold AnnotatedClassUtil.alloc_annotated.
  cbn [AnnotatedClassUtil.properties AnnotatedClassUtil.type_alignment
       AnnotatedClassUtil.split].
  fold allocated. destruct allocated as [ann_ptr w'].
  cbn [fst snd].
  destruct (AnnotatedClassUtil.get ann_ptr =? AnnotatedClassUtil.nullptr)
    eqn:Hnull.
  - apply Z.eqb_eq in Hnull. repeat split; assumption.
  - apply Z.eqb_neq in Hnull. repeat split; assumption.
Qed.

(** * Further properties of the sources *)

(** ** [quadratic_gold] on special coefficients *)

Module GoldFacts.

Lemma mul_nan_r (x : double) : (x * NAN)%double = NAN.
Proof. destruct x; reflexivity. Qed.

Lemma sub_nan_r (x : double) : (x - NAN)%double = NAN.
Proof. destruct x; reflexivity. Qed.

Lemma d2_0_eq : d2_0 = S754_finite false 4503599627370496 (-51).
Proof. vm_compute. reflexivity. Qed.

Lemma d4_0_eq : d4_0 = S754_finite false 4503599627370496 (-50).
Proof. vm_compute. reflexivity. Qed.

Lemma div_zero_not_finite (x : double) (s : bool) :
  is_finite (x / S754_zero s)%double = false.
Proof. destruct x; reflexivity. Qed.

Lemma SFltb_nan_r (x : spec_float) : SFltb x S754_nan = false.
Proof. destruct x; reflexivity. Qed.

End GoldFacts.

(** X1. A NaN among the coefficients makes the discriminant NaN, and
    [quadratic_gold] returns the pair (NaN, NaN). *)
Theorem quadratic_gold_nan_coefficient (a b c : double) :
  isnan a = true \/ isnan b = true \/ isnan c = true ->
  quadratic_gold a b c = (NAN, NAN).
Proof.
  intros H.
  assert (Hd : (b * b - d4_0 * a * c)%double = NAN).
  { destruct H as [H | [H | H]].
    - destruct a; try discriminate H.
      rewrite GoldFacts.mul_nan_r. change (Double.mul S754_nan c) with NAN.
      apply GoldFacts.sub_nan_r.
    - destruct b; try discriminate H. reflexivity.
    - destruct c; try discriminate H.
      rewrite GoldFacts.mul_nan_r. apply GoldFacts.sub_nan_r. }
  unfold quadratic_gold. rewrite Hd. reflexivity.
Qed.

Lemma quadratic_gold_nan_coefficient_witness :
  quadratic_gold d1_0 NAN d4_0 = (NAN, NAN).
Proof.
  apply quadratic_gold_nan_coefficient. right; left; reflexivity.
Defined.

(** X2. With [a = 0] (of either sign) [quadratic_gold] divides by zero:
    whatever [b] and [c], neither returned root is a finite number. *)
Theorem quadratic_gold_zero_a (s : bool) (b c : double) :
  is_finite (fst (quadratic_gold (S754_zero s) b c)) = false
  /\ is_finite (snd (quadratic_gold (S754_zero s) b c)) = false.
Proof.
  unfold quadratic_gold.
  destruct ((_ >? d0_0)%double || (_ <? d1e_20)%double).
  - cbn [fst snd]. rewrite GoldFacts.d2_0_eq.
    change (Double.mul (S754_finite false 4503599627370496 (-51))
              (S754_zero s))
      with (S754_zero (xorb false s)).
    split; apply GoldFacts.div_zero_not_finite.
  - split; reflexivity.
Qed.

(** ** The tolerance test and the driver of the quadratic solvers *)

(** X3. The tolerance test cannot see a NaN: when, for each root, the
    computed value or the golden value is NaN, [passed] is left as it
    was, whatever the other values are. *)
Theorem nan_is_never_flagged (passed : bool) (output : PairAPDoubleType)
    (golden : DoublePair) :
  is_nan (fst output) = true \/ isnan (fst golden) = true ->
  is_nan (snd output) = true \/ isnan (snd golden) = true ->
  tolerance_check passed output golden = passed.
Proof.
  intros H1 H2.
  assert (Hdiff : forall (o : ConfigurableFloat) (g : double),
            is_nan o = true \/ isnan g = true ->
            (fabs (to_double o - g) >? kQuadraticEqnEpsilon)%double = false).
  { intros o g H.
    assert (Hn : (to_double o - g)%double = NAN).
    { destruct H as [H | H].
      - unfold is_nan in H. unfold to_double.
        destruct (value o); try discriminate H. reflexivity.
      - destruct g; try discriminate H. apply GoldFacts.sub_nan_r. }
    rewrite Hn. apply GoldFacts.SFltb_nan_r. }
  unfold tolerance_check. rewrite (Hdiff _ _ H1), (Hdiff _ _ H2). reflexivity.
Qed.

Lemma nan_is_never_flagged_witness :
  tolerance_check true (nan binary64, nan binary64) (d1_0, d2_0) = true.
Proof.
  apply nan_is_never_flagged; left; reflexivity.
Defined.

Module DriverFacts.

Lemma tolerance_check_and (passed : bool) (output : PairAPDoubleType)
    (golden : DoublePair) :
  tolerance_check passed output golden
  = passed && tolerance_check true output golden.
Proof.
  unfold tolerance_check.
  destruct ((_ >? kQuadraticEqnEpsilon)%double
            || (_ >? kQuadraticEqnEpsilon)%double);
    destruct passed; reflexivity.
Qed.

Lemma run_testvec_and func (passed : bool) (v : double * double * double) :
  run_testvec func passed v = passed && run_testvec func true v.
Proof.
  destruct v as [[a b] c]. unfold run_testvec. apply tolerance_check_and.
Qed.

Lemma fold_run_testvec func (l : list (double * double * double))
    (passed : bool) :
  fold_left (run_testvec func) l passed
  = passed && forallb (run_testvec func true) l.
Proof.
  revert passed. induction l as [|v l IH]; intros passed; cbn [fold_left forallb].
  - rewrite andb_true_r. reflexivity.
  - rewrite IH, run_testvec_and, andb_assoc. reflexivity.
Qed.

End DriverFacts.

(** X4. The driver only ever clears [passed]: it returns true exactly when
    each test vector passes the tolerance test on its own and both roots of
    the NaN case are NaN. *)
Theorem driver_verdict
    (func : spec_float -> spec_float -> spec_float -> PairAPDoubleType) :
  RunSpecifiedQuadraticEqnSolverKernel func = true <->
  (forall v, In v testvec -> run_testvec func true v = true)
  /\ isnan (to_double (fst (func (to_float d1_0) (to_float d2_0)
                              (to_float d4_0)))) = true
  /\ isnan (to_double (snd (func (to_float d1_0) (to_float d2_0)
                              (to_float d4_0)))) = true.
Proof.
  unfold RunSpecifiedQuadraticEqnSolverKernel, nan_check.
  rewrite DriverFacts.fold_run_testvec. cbn [andb].
  rewrite <- forallb_forall.
  destruct (forallb (run_testvec func true) testvec);
    destruct (isnan (to_double (fst _))); destruct (isnan (to_double (snd _)));
    cbn [andb negb]; split; try tauto; try discriminate;
    intros (H1 & H2 & H3); discriminate.
Qed.

(** X5. The whole test program of the tutorial passes: the sine test, the
    three conversion kernels (within 1e-5) and the two quadratic kernels on
    their three vectors and on the NaN case, whatever the low-accuracy
    operations of the specialized kernel do. *)
Theorem ap_float_main_passes (o : low_outcomes) : ap_float_main o = true.
Proof.
  unfold ap_float_main.
  assert (Hs : TestSineApproximation = true) by (vm_compute; reflexivity).
  assert (Hc : TestAllConversionKernels = true) by (vm_compute; reflexivity).
  rewrite Hs, Hc. cbn [andb].
  destruct o as [[] [] [] [] []]; vm_compute; reflexivity.
Qed.

(** ** [remove_align_from] *)

(** X6. [remove_align_from] touches nothing but an alignment: the other
    properties of the list are kept, in their order, and a list with no
    alignment is returned as it is. *)
Theorem remove_align_from_keeps_others (ps : AnnotatedClassUtil.properties_t) :
  filter (fun p => negb (AnnotatedClassUtil.HasAlign p))
    (AnnotatedClassUtil.remove_align_from ps)
  = filter (fun p => negb (AnnotatedClassUtil.HasAlign p)) ps
  /\ (existsb AnnotatedClassUtil.HasAlign ps = false ->
      AnnotatedClassUtil.remove_align_from ps = ps).
Proof.
  split.
  - induction ps as [|p ps IH]; [reflexivity|].
    cbn [AnnotatedClassUtil.remove_align_from filter].
    destruct (AnnotatedClassUtil.HasAlign p) eqn:Hp; cbn [negb].
    + reflexivity.
    + cbn [filter]. rewrite Hp. cbn [negb]. rewrite IH. reflexivity.
  - induction ps as [|p ps IH]; [reflexivity|].
    cbn [AnnotatedClassUtil.remove_align_from existsb].
    destruct (AnnotatedClassUtil.HasAlign p); cbn [orb]; [discriminate|].
    intros H. rewrite (IH H). reflexivity.
Qed.

Lemma remove_align_from_keeps_others_witness :
  AnnotatedClassUtil.remove_align_from
    [AnnotatedClassUtil.buffer_location 1; AnnotatedClassUtil.dwidth 32]
  = [AnnotatedClassUtil.buffer_location 1; AnnotatedClassUtil.dwidth 32].
Proof.
  apply remove_align_from_keeps_others. reflexivity.
Defined.



(** ** Loops over an index *)

Module LoopFacts.

Lemma indices_nonpos (n : Z) : n <= 0 -> indices n = [].
Proof.
  intros H. unfold indices.
  replace (Z.to_nat n) with 0%nat by lia. reflexivity.
Qed.

Lemma indices_succ (n : Z) : 0 <= n -> indices (n + 1) = indices n ++ [n].
Proof.
  intros H. unfold indices.
  replace (Z.to_nat (n + 1)) with (S (Z.to_nat n)) by lia.
  rewrite seq_S, map_app. cbn [map Nat.add].
  rewrite Z2Nat.id by assumption. reflexivity.
Qed.

Lemma for_loop_nonpos {S : Type} (n : Z) (body : S -> Z -> S) (s : S) :
  n <= 0 -> for_loop n body s = s.
Proof.
  intros H. unfold for_loop. rewrite indices_nonpos by assumption.
  reflexivity.
Qed.

Lemma for_loop_succ {S : Type} (n : Z) (body : S -> Z -> S) (s : S) :
  0 <= n -> for_loop (n + 1) body s = body (for_loop n body s) n.
Proof.
  intros H. unfold for_loop. rewrite indices_succ by assumption.
  rewrite fold_left_app. reflexivity.
Qed.

(** An invariant of the loop: it holds before the first iteration and every
    iteration keeps it. *)
Lemma for_loop_invariant {S : Type} (P : Z -> S -> Prop) (n : Z)
    (body : S -> Z -> S) (s : S) :
  0 <= n ->
  P 0 s ->
  (forall i s', 0 <= i < n -> P i s' -> P (i + 1) (body s' i)) ->
  P n (for_loop n body s).
Proof.
  intros Hn H0 Hstep.
  assert (H : forall k, 0 <= k -> k <= n -> P k (for_loop k body s)).
  { intros k Hk. pattern k. apply natlike_ind; [| |assumption].
    - intros _. rewrite for_loop_nonpos by lia. assumption.
    - intros i Hi IH Hle. unfold Z.succ. rewrite for_loop_succ by assumption.
      apply Hstep; [lia|]. apply IH. lia. }
  apply H; lia.
Qed.

(** A verification loop answers true when every index passes. *)
Lemma verify_loop_true (n : Z) (ok : Z -> bool) :
  (forall i, 0 <= i < n -> ok i = true) ->
  for_loop n (fun passed i => if negb (ok i) then false else passed) true
  = true.
Proof.
  intros H. destruct (Z_le_gt_dec 0 n) as [Hn|Hn].
  - apply (for_loop_invariant (fun _ passed => passed = true)); trivial.
    intros i s' Hi ->. rewrite (H i Hi). reflexivity.
  - apply for_loop_nonpos. lia.
Qed.

(** It answers false as soon as one index fails. *)
Lemma verify_loop_false (n : Z) (ok : Z -> bool) (j : Z) :
  0 <= j < n -> ok j = false ->
  for_loop n (fun passed i => if negb (ok i) then false else passed) true
  = false.
Proof.
  intros Hj Hbad.
  assert (H : forall k, 0 <= k -> j < k ->
     for_loop k (fun passed i => if negb (ok i) then false else passed) true
     = false).
  { intros k Hk. pattern k. apply natlike_ind; [lia| |assumption].
    intros i Hi IH Hlt. unfold Z.succ. rewrite for_loop_succ by assumption.
    destruct (Z.eq_dec i j) as [->|Hne].
    - rewrite Hbad. reflexivity.
    - rewrite IH by lia. destruct (negb (ok i)); reflexivity. }
  apply H; lia.
Qed.

End LoopFacts.

(** ** The vector additions *)

Module VectorAddFacts.

Import AnnotatedClassUtil VectorAdd.

Lemma wrap_int_small (v : Z) :
  - 2 ^ 31 <= v < 2 ^ 31 -> wrap_int v = v.
Proof.
  intros H. unfold wrap_int.
  change (2 ^ 31) with 2147483648 in *. change (2 ^ 32) with 4294967296.
  rewrite Z.mod_small by lia. lia.
Qed.

Lemma load_store_same (m : memory) (p : annotated) (i v : Z) :
  load (store m p i v) p i = v.
Proof. unfold load, store. rewrite Z.eqb_refl. reflexivity. Qed.

Lemma store_other (m : memory) (p : annotated) (i v q : Z) :
  q <> get p + i -> store m p i v q = m q.
Proof.
  intros H. unfold store. destruct (Z.eqb_spec q (get p + i)); congruence.
Qed.

(** The loop shared by the two kernels. *)
Lemma vadd_loop_spec (n : Z) (x y z : annotated) (m : memory) :
  no_write_ahead n z x -> no_write_ahead n z y ->
  let m' :=
    for_loop n
      (fun m i => store m z i (int_add (load m x i) (load m y i))) m in
  (forall i, 0 <= i < n ->
     load m' z i = int_add (load m x i) (load m y i))
  /\ (forall q, (forall i, 0 <= i < n -> q <> get z + i) -> m' q = m q).
Proof.
  intros Hx Hy m'.
  destruct (Z_le_gt_dec 0 n) as [Hn|Hn].
  2:{ subst m'. rewrite LoopFacts.for_loop_nonpos by lia.
      split; [intros; lia | reflexivity]. }
  subst m'.
  apply (LoopFacts.for_loop_invariant
           (fun k m' =>
              (forall i, 0 <= i < k ->
                 load m' z i = int_add (load m x i) (load m y i))
              /\ (forall q, (forall i, 0 <= i < k -> q <> get z + i) ->
                    m' q = m q))); [assumption | | ].
  - split; [intros; lia | reflexivity].
  - intros k mk Hk [Hdone Hframe].
    assert (Hrx : load mk x k = load m x k).
    { unfold load. apply Hframe. intros i Hi H.
      apply (Hx i k); [lia | lia | congruence]. }
    assert (Hry : load mk y k = load m y k).
    { unfold load. apply Hframe. intros i Hi H.
      apply (Hy i k); [lia | lia | congruence]. }
    split.
    + intros i Hi. destruct (Z.eq_dec i k) as [->|Hne].
      * rewrite load_store_same, Hrx, Hry. reflexivity.
      * unfold load at 1. rewrite store_other by lia.
        apply Hdone. lia.
    + intros q Hq. rewrite store_other by (apply Hq; lia).
      apply Hframe. intros i Hi. apply Hq. lia.
Qed.

Lemma disjoint_no_write_ahead (n : Z) (p q : annotated) :
  disjoint n p q -> no_write_ahead n p q.
Proof. intros H i j Hi Hj. apply H; lia. Qed.

Lemma no_write_ahead_self (n : Z) (p : annotated) : no_write_ahead n p p.
Proof. intros i j Hi Hj. lia. Qed.

Lemma disjoint_sym (n : Z) (p q : annotated) :
  disjoint n p q -> disjoint n q p.
Proof. intros H i j Hi Hj E. apply (H j i Hj Hi). congruence. Qed.

End VectorAddFacts.

(** X8. The kernel [DDRIP] leaves [x[i] + y[i]] (as an [int]) in [z[i]] for
    every [i < size] and changes no other address, provided no write to [z]
    lands on an element of [x] or [y] that a later iteration reads: so for
    arrays that share no element, and also in place, when [z] is [x]
    itself.  With [size <= 0] the memory is unchanged. *)
Theorem DDRIP_call_spec (k : VectorAdd.DDRIP) (m : VectorAdd.memory) :
  VectorAdd.no_write_ahead (VectorAdd.size k) (VectorAdd.z k) (VectorAdd.x k) ->
  VectorAdd.no_write_ahead (VectorAdd.size k) (VectorAdd.z k) (VectorAdd.y k) ->
  let m' := VectorAdd.DDRIP_call k m in
  (forall i, 0 <= i < VectorAdd.size k ->
     VectorAdd.load m' (VectorAdd.z k) i
     = VectorAdd.int_add (VectorAdd.load m (VectorAdd.x k) i)
         (VectorAdd.load m (VectorAdd.y k) i))
  /\ (forall q,
        (forall i, 0 <= i < VectorAdd.size k ->
           q <> AnnotatedClassUtil.get (VectorAdd.z k) + i) ->
        m' q = m q)
  /\ (VectorAdd.size k <= 0 -> m' = m).
Proof.
  intros Hx Hy m'.
  destruct (VectorAddFacts.vadd_loop_spec _ _ _ _ m Hx Hy) as [H1 H2].
  split; [exact H1|]. split; [exact H2|].
  intros Hn. apply LoopFacts.for_loop_nonpos, Hn.
Qed.

(** In place: [x] and [z] are the same array of three elements at address
    10, [y] is at address 20. *)
Lemma DDRIP_call_spec_witness :
  let p := {| AnnotatedClassUtil.get := 10; AnnotatedClassUtil.props := [] |} in
  let q := {| AnnotatedClassUtil.get := 20; AnnotatedClassUtil.props := [] |} in
  let k :=
    {| VectorAdd.x := p; VectorAdd.y := q; VectorAdd.z := p;
       VectorAdd.size := 3 |} in
  let m := fun a : Z => a in
  VectorAdd.load (VectorAdd.DDRIP_call k m) p 2
  = VectorAdd.int_add (VectorAdd.load m p 2) (VectorAdd.load m q 2).
Proof.
  intros p q k m.
  refine (proj1 (DDRIP_call_spec k m _ _) 2 _).
  - apply VectorAddFacts.no_write_ahead_self.
  - intros i j Hi Hj. subst p q k.
    cbn [AnnotatedClassUtil.get VectorAdd.size VectorAdd.z VectorAdd.y] in *.
    lia.
  - subst p q k. cbn [VectorAdd.size]. lia.
Defined.

(** X9. The kernel [SimpleVAddKernel] leaves [a_in[idx] + b_in[idx]] in
    [c_out[idx]] for every [idx < len] and changes no other address, under
    the same condition on the writes; with [len <= 0] the memory is
    unchanged. *)
Theorem SimpleVAddKernel_call_spec (k : VectorAdd.SimpleVAddKernel)
    (m : VectorAdd.memory) :
  VectorAdd.no_write_ahead (VectorAdd.len k) (VectorAdd.c_out k)
    (VectorAdd.a_in k) ->
  VectorAdd.no_write_ahead (VectorAdd.len k) (VectorAdd.c_out k)
    (VectorAdd.b_in k) ->
  let m' := VectorAdd.SimpleVAddKernel_call k m in
  (forall idx, 0 <= idx < VectorAdd.len k ->
     VectorAdd.load m' (VectorAdd.c_out k) idx
     = VectorAdd.int_add (VectorAdd.load m (VectorAdd.a_in k) idx)
         (VectorAdd.load m (VectorAdd.b_in k) idx))
  /\ (forall q,
        (forall idx, 0 <= idx < VectorAdd.len k ->
           q <> AnnotatedClassUtil.get (VectorAdd.c_out k) + idx) ->
        m' q = m q)
  /\ (VectorAdd.len k <= 0 -> m' = m).
Proof.
  intros Ha Hb m'.
  destruct (VectorAddFacts.vadd_loop_spec _ _ _ _ m Ha Hb) as [H1 H2].
  split; [exact H1|]. split; [exact H2|].
  intros Hn. apply LoopFacts.for_loop_nonpos, Hn.
Qed.

Lemma SimpleVAddKernel_call_spec_witness :
  let a := {| AnnotatedClassUtil.get := 0; AnnotatedClassUtil.props := [] |} in
  let b := {| AnnotatedClassUtil.get := 4; AnnotatedClassUtil.props := [] |} in
  let c := {| AnnotatedClassUtil.get := 8; AnnotatedClassUtil.props := [] |} in
  let k :=
    {| VectorAdd.a_in := a; VectorAdd.b_in := b; VectorAdd.c_out := c;
       VectorAdd.len := 4 |} in
  let m := fun q : Z => q * q in
  VectorAdd.load (VectorAdd.SimpleVAddKernel_call k m) c 3
  = VectorAdd.int_add (VectorAdd.load m a 3) (VectorAdd.load m b 3).
Proof.
  intros a b c k m.
  refine (proj1 (SimpleVAddKernel_call_spec k m _ _) 3 _);
    subst a b c k;
    try (intros i j Hi Hj);
    cbn [AnnotatedClassUtil.get VectorAdd.len VectorAdd.c_out VectorAdd.a_in
         VectorAdd.b_in] in *;
    lia.
Defined.

Module MainFacts.

Import AnnotatedClassUtil VectorAdd VectorAddFacts.

Lemma ddrip_fill_spec (array_a array_b : annotated) (m : memory) :
  disjoint kN array_a array_b ->
  forall i, 0 <= i < kN ->
    load (ddrip_fill array_a array_b m) array_a i = i
    /\ load (ddrip_fill array_a array_b m) array_b i = int_mul 2 i.
Proof.
  intros Hd. unfold ddrip_fill.
  apply (LoopFacts.for_loop_invariant
           (fun k m' => forall i, 0 <= i < k ->
              load m' array_a i = i /\ load m' array_b i = int_mul 2 i)).
  - unfold kN. lia.
  - intros; lia.
  - intros k m' Hk IH i Hi.
    destruct (Z.eq_dec i k) as [->|Hne].
    + split.
      * unfold load at 1. rewrite store_other by (apply Hd; lia).
        apply load_store_same.
      * apply load_store_same.
    + destruct (IH i) as [IHa IHb]; [lia|].
      split.
      * unfold load at 1.
        rewrite store_other by (apply Hd; lia).
        rewrite store_other by lia. exact IHa.
      * unfold load at 1.
        rewrite store_other by lia.
        rewrite store_other by (apply (disjoint_sym _ _ _ Hd); lia).
        exact IHb.
Qed.

Lemma vadd_fill_spec (count : Z) (a b : annotated) (m : memory) :
  0 <= count -> disjoint count a b ->
  forall i, 0 <= i < count ->
    load (vadd_fill count a b m) a i = i
    /\ load (vadd_fill count a b m) b i = int_sub count i.
Proof.
  intros Hc Hd. unfold vadd_fill.
  apply (LoopFacts.for_loop_invariant
           (fun k m' => forall i, 0 <= i < k ->
              load m' a i = i /\ load m' b i = int_sub count i)).
  - assumption.
  - intros; lia.
  - intros k m' Hk IH i Hi.
    destruct (Z.eq_dec i k) as [->|Hne].
    + split.
      * unfold load at 1. rewrite store_other by (apply Hd; lia).
        apply load_store_same.
      * apply load_store_same.
    + destruct (IH i) as [IHa IHb]; [lia|].
      split.
      * unfold load at 1.
        rewrite store_other by (apply Hd; lia).
        rewrite store_other by lia. exact IHa.
      * unfold load at 1.
        rewrite store_other by lia.
        rewrite store_other by (apply (disjoint_sym _ _ _ Hd); lia).
        exact IHb.
Qed.

Lemma kernel_frame (n : Z) (x y z p : annotated) (m : memory) (i : Z) :
  disjoint n z p -> 0 <= i < n ->
  (forall q, (forall j, 0 <= j < n -> q <> get z + j) ->
     for_loop n
       (fun m i => store m z i (int_add (load m x i) (load m y i))) m q
     = m q) ->
  load (for_loop n
          (fun m i => store m z i (int_add (load m x i) (load m y i))) m) p i
  = load m p i.
Proof.
  intros Hd Hi Hframe. unfold load. apply Hframe.
  intros j Hj E. apply (Hd j i Hj Hi). congruence.
Qed.

End MainFacts.

Module RunFacts.

Lemma ddrip_run_ok (array_a array_b array_c : AnnotatedClassUtil.annotated)
    (m : VectorAdd.memory) :
  VectorAdd.disjoint VectorAdd.kN array_a array_b ->
  VectorAdd.disjoint VectorAdd.kN array_c array_a ->
  VectorAdd.disjoint VectorAdd.kN array_c array_b ->
  fst (VectorAdd.ddrip_run array_a array_b array_c m) = true
  /\ forall i, 0 <= i < VectorAdd.kN ->
       VectorAdd.load (snd (VectorAdd.ddrip_run array_a array_b array_c m))
         array_c i = 3 * i.
Proof.
  intros Hab Hca Hcb.
  unfold VectorAdd.ddrip_run. cbn [fst snd].
  set (m1 := VectorAdd.ddrip_fill array_a array_b m).
  destruct (VectorAddFacts.vadd_loop_spec VectorAdd.kN array_a array_b array_c
              m1 (VectorAddFacts.disjoint_no_write_ahead _ _ _ Hca)
              (VectorAddFacts.disjoint_no_write_ahead _ _ _ Hcb))
    as [Hsum _].
  assert (Hc : forall i, 0 <= i < VectorAdd.kN ->
            VectorAdd.load
              (VectorAdd.DDRIP_call
                 {| VectorAdd.x := array_a; VectorAdd.y := array_b;
                    VectorAdd.z := array_c; VectorAdd.size := VectorAdd.kN |}
                 m1) array_c i = 3 * i
            /\ VectorAdd.int_mul 3 i = 3 * i).
  { intros i Hi. unfold VectorAdd.DDRIP_call.
    cbn [VectorAdd.x VectorAdd.y VectorAdd.z VectorAdd.size].
    rewrite (Hsum i Hi).
    destruct (MainFacts.ddrip_fill_spec array_a array_b m Hab i Hi)
      as [Ha Hb].
    fold m1 in Ha, Hb. rewrite Ha, Hb.
    unfold VectorAdd.kN in Hi.
    unfold VectorAdd.int_mul, VectorAdd.int_add.
    rewrite !VectorAddFacts.wrap_int_small by
      (rewrite ?VectorAddFacts.wrap_int_small; change (2 ^ 31) with 2147483648;
       lia).
    split; lia. }
  split.
  - unfold VectorAdd.ddrip_verify. apply LoopFacts.verify_loop_true.
    intros i Hi. destruct (Hc i Hi) as [H1 H2]. rewrite H1, H2.
    apply Z.eqb_refl.
  - intros i Hi. apply Hc, Hi.
Qed.

Lemma vadd_run_ok (a b c : AnnotatedClassUtil.annotated)
    (m : VectorAdd.memory) :
  VectorAdd.disjoint VectorAdd.kVectorSize c a ->
  VectorAdd.disjoint VectorAdd.kVectorSize c b ->
  fst (VectorAdd.vadd_run a b c m) = true
  /\ (VectorAdd.disjoint VectorAdd.kVectorSize a b ->
      forall i, 0 <= i < VectorAdd.kVectorSize ->
        VectorAdd.load (snd (VectorAdd.vadd_run a b c m)) c i = 256).
Proof.
  intros Hca Hcb.
  unfold VectorAdd.vadd_run. cbn [fst snd].
  set (m1 := VectorAdd.vadd_fill VectorAdd.kVectorSize a b m).
  destruct (VectorAddFacts.vadd_loop_spec VectorAdd.kVectorSize a b c
              m1 (VectorAddFacts.disjoint_no_write_ahead _ _ _ Hca)
              (VectorAddFacts.disjoint_no_write_ahead _ _ _ Hcb))
    as [Hsum Hframe].
  unfold VectorAdd.SimpleVAddKernel_call.
  cbn [VectorAdd.a_in VectorAdd.b_in VectorAdd.c_out VectorAdd.len].
  split.
  - unfold VectorAdd.vadd_verify. apply LoopFacts.verify_loop_true.
    intros i Hi.
    rewrite (MainFacts.kernel_frame _ a b c a m1 i Hca Hi Hframe).
    rewrite (MainFacts.kernel_frame _ a b c b m1 i Hcb Hi Hframe).
    rewrite (Hsum i Hi). apply Z.eqb_refl.
  - intros Hab i Hi. rewrite (Hsum i Hi).
    destruct (MainFacts.vadd_fill_spec VectorAdd.kVectorSize a b m
                ltac:(unfold VectorAdd.kVectorSize; lia) Hab i Hi)
      as [Ha Hb].
    fold m1 in Ha, Hb. rewrite Ha, Hb.
    unfold VectorAdd.kVectorSize in *.
    unfold VectorAdd.int_sub, VectorAdd.int_add.
    rewrite !VectorAddFacts.wrap_int_small by
      (rewrite ?VectorAddFacts.wrap_int_small; change (2 ^ 31) with 2147483648;
       lia).
    lia.
Qed.

End RunFacts.

(** X10. In the [DDRIP] sample, once the three arrays share no element, the
    kernel leaves [3 * i] in [array_c[i]] for each of the 8 indices and the
    verification keeps [passed] true, whatever the memory held before. *)
Theorem ddrip_run_passes (array_a array_b array_c : AnnotatedClassUtil.annotated)
    (m : VectorAdd.memory) :
  VectorAdd.disjoint VectorAdd.kN array_a array_b ->
  VectorAdd.disjoint VectorAdd.kN array_c array_a ->
  VectorAdd.disjoint VectorAdd.kN array_c array_b ->
  fst (VectorAdd.ddrip_run array_a array_b array_c m) = true
  /\ forall i, 0 <= i < VectorAdd.kN ->
       VectorAdd.load (snd (VectorAdd.ddrip_run array_a array_b array_c m))
         array_c i = 3 * i.
Proof. exact (RunFacts.ddrip_run_ok array_a array_b array_c m). Qed.

Lemma ddrip_run_passes_witness :
  let a := {| AnnotatedClassUtil.get := 0; AnnotatedClassUtil.props := [] |} in
  let b := {| AnnotatedClassUtil.get := 8; AnnotatedClassUtil.props := [] |} in
  let c := {| AnnotatedClassUtil.get := 16; AnnotatedClassUtil.props := [] |} in
  fst (VectorAdd.ddrip_run a b c (fun _ => 0)) = true.
Proof.
  intros a b c.
  refine (proj1 (ddrip_run_passes a b c (fun _ => 0) _ _ _));
    intros i j Hi Hj; subst a b c; unfold VectorAdd.kN in *;
    cbn [AnnotatedClassUtil.get]; lia.
Defined.

(** X11. In the [SimpleVAdd] sample the verification compares the kernel
    with the host's own addition: it keeps [passed] true as soon as the
    output array shares no element with the two inputs, whatever the
    memory held; when the inputs do not overlap either, every element of
    the output is 256. *)
Theorem vadd_run_passes (a b c : AnnotatedClassUtil.annotated)
    (m : VectorAdd.memory) :
  VectorAdd.disjoint VectorAdd.kVectorSize c a ->
  VectorAdd.disjoint VectorAdd.kVectorSize c b ->
  fst (VectorAdd.vadd_run a b c m) = true
  /\ (VectorAdd.disjoint VectorAdd.kVectorSize a b ->
      forall i, 0 <= i < VectorAdd.kVectorSize ->
        VectorAdd.load (snd (VectorAdd.vadd_run a b c m)) c i = 256).
Proof. exact (RunFacts.vadd_run_ok a b c m). Qed.

Lemma vadd_run_passes_witness :
  let a := {| AnnotatedClassUtil.get := 0; AnnotatedClassUtil.props := [] |} in
  let c := {| AnnotatedClassUtil.get := 256; AnnotatedClassUtil.props := [] |} in
  fst (VectorAdd.vadd_run a a c (fun q => q)) = true.
Proof.
  intros a c.
  refine (proj1 (vadd_run_passes a a c (fun q => q) _ _));
    intros i j Hi Hj; subst a c; unfold VectorAdd.kVectorSize in *;
    cbn [AnnotatedClassUtil.get]; lia.
Defined.

Module AllocFacts.

Import AnnotatedClassUtil.

Section Alloc.

Variables queue world : Type.
Variable GetAlignFromPropList : properties_t -> Z.
Variable aligned_alloc_annotated :
  properties_t -> Z -> Z -> queue -> usm_alloc -> world -> annotated * world.



End Alloc.

End AllocFacts.





(** ** The weighted sums of the annotated-pointer sample *)

Module PipeFacts.

Import AnnotatedClassUtil AnnotatedPtr.

Lemma indices_COLS : indices COLS = [0; 1; 2; 3; 4].
Proof. reflexivity. Qed.

Lemma indices_ROWS : indices ROWS = [0; 1].
Proof. reflexivity. Qed.

Lemma float_store_other (m : memory) (p i : Z) (v : spec_float) (q : Z) :
  q <> p + i -> store m p i v q = m q.
Proof.
  intros H. unfold store. destruct (Z.eqb_spec q (p + i)); congruence.
Qed.

Lemma float_load_store_same (m : memory) (p i : Z) (v : spec_float) :
  load (store m p i v) p i = v.
Proof. unfold load, store. rewrite Z.eqb_refl. reflexivity. Qed.

(** The sum of a row only depends on the five elements of the row and on
    the five weights. *)
Lemma weighted_sum_ext (m1 m2 : memory) (data mul : pointer) :
  (forall j, 0 <= j < COLS ->
     m1 (data + j) = m2 (data + j) /\ m1 (mul + j) = m2 (mul + j)) ->
  weighted_sum m1 data mul = weighted_sum m2 data mul.
Proof.
  intros H. unfold weighted_sum, for_loop, load. rewrite indices_COLS.
  cbn [fold_left].
  destruct (H 0) as [-> ->]; [unfold COLS; lia|].
  destruct (H 1) as [-> ->]; [unfold COLS; lia|].
  destruct (H 2) as [-> ->]; [unfold COLS; lia|].
  destruct (H 3) as [-> ->]; [unfold COLS; lia|].
  destruct (H 4) as [-> ->]; [unfold COLS; lia|].
  reflexivity.
Qed.

(** Shifting to the right keeps a mantissa that is not negative so. *)
Lemma shr_1_nonneg (mrs : shr_record) :
  0 <= shr_m mrs -> 0 <= shr_m (shr_1 mrs).
Proof.
  destruct mrs as [m r s]. cbn [shr_m].
  destruct m as [|[p|p|]|p]; cbn [shr_1 shr_m]; lia.
Qed.

Lemma iter_pos_invariant {A : Type} (P : A -> Prop) (f : A -> A) :
  (forall a, P a -> P (f a)) ->
  forall (n : positive) (a : A), P a -> P (iter_pos f n a).
Proof.
  intros Hf. induction n as [n IH|n IH|]; intros a Ha; cbn [iter_pos].
  - apply IH, IH, Hf, Ha.
  - apply IH, IH, Ha.
  - apply Hf, Ha.
Qed.

Lemma shr_fexp_nonneg (prec emax m e : Z) (l : location) :
  0 <= m -> 0 <= shr_m (fst (shr_fexp prec emax m e l)).
Proof.
  intros Hm. unfold shr_fexp, shr.
  assert (H0 : 0 <= shr_m (shr_record_of_loc m l))
    by (destruct l as [|[ | | ]]; exact Hm).
  destruct (fexp prec emax (Zdigits2 m + e) - e); cbn [fst]; try exact H0.
  apply (iter_pos_invariant (fun mrs => 0 <= shr_m mrs)); [|exact H0].
  apply shr_1_nonneg.
Qed.

Lemma round_nearest_even_nonneg (m : Z) (l : location) :
  0 <= m -> 0 <= round_nearest_even m l.
Proof.
  intros Hm. unfold round_nearest_even.
  destruct l as [|[ | | ]]; try destruct (Z.even m); lia.
Qed.

(** Rounding a magnitude with a positive sign never gives NaN nor a
    negative number. *)
Lemma binary_round_aux_nonneg (prec emax m e : Z) (l : location) :
  0 <= m -> nonneg (binary_round_aux prec emax false m e l) = true.
Proof.
  intros Hm. unfold binary_round_aux.
  pose proof (shr_fexp_nonneg prec emax m e l Hm) as H1.
  destruct (shr_fexp prec emax m e l) as [mrs' e']. cbn [fst] in H1.
  pose proof (shr_fexp_nonneg prec emax
                (round_nearest_even (shr_m mrs') (loc_of_shr_record mrs'))
                e' loc_Exact (round_nearest_even_nonneg _ _ H1)) as H2.
  destruct (shr_fexp prec emax _ e' loc_Exact) as [mrs'' e''].
  cbn [fst] in H2.
  destruct (shr_m mrs'') as [|p|p]; [reflexivity | | lia].
  destruct (e'' <=? emax - prec); reflexivity.
Qed.

Lemma binary_round_nonneg (prec emax : Z) (m : positive) (e : Z) :
  nonneg (binary_round prec emax false m e) = true.
Proof.
  unfold binary_round. destruct (shl_align _ _ _) as [mz ez].
  apply binary_round_aux_nonneg. lia.
Qed.

Lemma fmul_nonneg (x y : spec_float) :
  finite_nonneg x = true -> finite_nonneg y = true ->
  nonneg (fmul x y) = true.
Proof.
  destruct x as [sx|sx| |sx mx ex], y as [sy|sy| |sy my ey];
    cbn [finite_nonneg]; try discriminate;
    destruct sx, sy; try discriminate; intros _ _;
    try reflexivity.
  unfold fmul, SFmul. cbn [xorb]. apply binary_round_aux_nonneg. lia.
Qed.

Lemma fadd_nonneg (x y : spec_float) :
  nonneg x = true -> nonneg y = true -> nonneg (fadd x y) = true.
Proof.
  destruct x as [sx|sx| |sx mx ex], y as [sy|sy| |sy my ey];
    cbn [nonneg]; try discriminate;
    destruct sx, sy; try discriminate; intros _ _;
    try reflexivity.
  unfold fadd, SFadd. cbn [cond_Zopp Z.add binary_normalize].
  apply binary_round_nonneg.
Qed.

Lemma nonneg_not_nan (x : spec_float) :
  nonneg x = true -> fne x x = false.
Proof.
  unfold fne, SFeqb.
  destruct x as [s|s| |s m e]; cbn [nonneg SFcompare]; try discriminate;
    destruct s; try discriminate; intros _; try reflexivity.
  rewrite Z.compare_refl.
  change (Pos.compare_cont Eq m m) with (Pos.compare m m).
  rewrite Pos.compare_refl. reflexivity.
Qed.

Lemma weighted_sum_nonneg (m : memory) (data mul : pointer) :
  (forall j, 0 <= j < COLS ->
     finite_nonneg (m (data + j)) = true /\ finite_nonneg (m (mul + j)) = true) ->
  nonneg (weighted_sum m data mul) = true.
Proof.
  intros H. unfold weighted_sum, for_loop, load. rewrite indices_COLS.
  cbn [fold_left].
  repeat (apply fadd_nonneg;
          [| apply fmul_nonneg; apply H; unfold COLS; lia]).
  reflexivity.
Qed.

End PipeFacts.

Module HostFacts.

Import AnnotatedClassUtil AnnotatedPtr PipeFacts.

Lemma fne_self (x : spec_float) : fne x x = isnan x.
Proof.
  unfold fne, SFeqb.
  destruct x as [s|s| |s m e]; cbn [SFcompare isnan];
    try (destruct s; reflexivity); try reflexivity.
  rewrite Z.compare_refl.
  change (Pos.compare_cont Eq m m) with (Pos.compare m m).
  rewrite Pos.compare_refl. destruct s; reflexivity.
Qed.

(** The two rows of the kernel, when the first result is written neither
    on the second row nor on the weights. *)
Lemma kernel_two_rows (k : pipeWithAnnotatedPtr) (p0 p1 : pointer)
    (rest : list pointer) (m : memory) :
  (forall j, 0 <= j < COLS ->
     get (result k) <> p1 + j /\ get (result k) <> get (mul k) + j) ->
  let s0 := weighted_sum m p0 (get (mul k)) in
  let s1 := weighted_sum m p1 (get (mul k)) in
  pipeWithAnnotatedPtr_call k (p0 :: p1 :: rest) m
  = Some (rest, store (store m (get (result k)) 0 s0) (get (result k)) 1 s1).
Proof.
  intros H s0 s1. unfold pipeWithAnnotatedPtr_call. rewrite indices_ROWS.
  cbn [kernel_rows]. fold s0.
  replace (weighted_sum (store m (get (result k)) 0 s0) p1 (get (mul k)))
    with s1; [reflexivity|].
  subst s1. apply weighted_sum_ext. intros j Hj.
  destruct (H j Hj) as [H1 H2].
  split; symmetry; apply float_store_other; lia.
Qed.

Lemma host_run_two_rows (r0 r1 mul returnData : pointer) (m : memory) :
  (forall j, 0 <= j < COLS ->
     returnData <> r1 + j /\ returnData <> mul + j) ->
  host_run [r0; r1] mul returnData m
  = Some (negb (isnan (weighted_sum m r0 mul))
          && negb (isnan (weighted_sum m r1 mul))).
Proof.
  intros H. unfold host_run.
  rewrite kernel_two_rows by exact H. cbn [get AnnotatedPtr.mul result].
  unfold verify, for_loop. rewrite indices_ROWS.
  cbn [fold_left expected_sums map].
  change (Z.to_nat 0) with 0%nat. change (Z.to_nat 1) with 1%nat.
  cbn [nth].
  rewrite float_load_store_same.
  unfold load at 1. rewrite float_store_other by lia.
  change (store m returnData 0 (weighted_sum m r0 mul) (returnData + 0))
    with (load (store m returnData 0 (weighted_sum m r0 mul)) returnData 0).
  rewrite float_load_store_same, !fne_self.
  destruct (isnan (weighted_sum m r0 mul)), (isnan (weighted_sum m r1 mul));
    reflexivity.
Qed.

End HostFacts.

(** X14. The kernel of the annotated-pointer sample reads one row pointer
    from the pipe for each of its two rows: with fewer than two pointers in
    the pipe it never finishes; with two, it leaves in [result[0]] and
    [result[1]] the weighted sums of the two rows, computed from 0.0f from
    left to right, takes nothing else from the pipe and changes no other
    address, provided [result[0]] is neither an element of the second row
    nor one of the weights. *)
Theorem pipe_kernel_spec (k : AnnotatedPtr.pipeWithAnnotatedPtr)
    (pipe : list AnnotatedClassUtil.pointer) (m : AnnotatedPtr.memory) :
  ((List.length pipe < 2)%nat ->
   AnnotatedPtr.pipeWithAnnotatedPtr_call k pipe m = None)
  /\ (forall p0 p1 rest,
        pipe = p0 :: p1 :: rest ->
        (forall j, 0 <= j < AnnotatedPtr.COLS ->
           AnnotatedClassUtil.get (AnnotatedPtr.result k) <> p1 + j
           /\ AnnotatedClassUtil.get (AnnotatedPtr.result k)
              <> AnnotatedClassUtil.get (AnnotatedPtr.mul k) + j) ->
        exists m',
          AnnotatedPtr.pipeWithAnnotatedPtr_call k pipe m = Some (rest, m')
          /\ AnnotatedPtr.load m'
               (AnnotatedClassUtil.get (AnnotatedPtr.result k)) 0
             = AnnotatedPtr.weighted_sum m p0
                 (AnnotatedClassUtil.get (AnnotatedPtr.mul k))
          /\ AnnotatedPtr.load m'
               (AnnotatedClassUtil.get (AnnotatedPtr.result k)) 1
             = AnnotatedPtr.weighted_sum m p1
                 (AnnotatedClassUtil.get (AnnotatedPtr.mul k))
          /\ forall q,
               q <> AnnotatedClassUtil.get (AnnotatedPtr.result k) + 0 ->
               q <> AnnotatedClassUtil.get (AnnotatedPtr.result k) + 1 ->
               m' q = m q).
Proof.
  split.
  - intros Hlen. unfold AnnotatedPtr.pipeWithAnnotatedPtr_call.
    rewrite PipeFacts.indices_ROWS.
    destruct pipe as [|p0 [|p1 rest]]; cbn [AnnotatedPtr.kernel_rows];
      try reflexivity.
    cbn [List.length] in Hlen. lia.
  - intros p0 p1 rest -> H. eexists. split.
    + apply HostFacts.kernel_two_rows, H.
    + split; [|split].
      * unfold AnnotatedPtr.load at 1.
        rewrite PipeFacts.float_store_other by lia.
        apply PipeFacts.float_load_store_same.
      * apply PipeFacts.float_load_store_same.
      * intros q H0 H1.
        rewrite !PipeFacts.float_store_other by assumption. reflexivity.
Qed.

Lemma pipe_kernel_spec_witness :
  let k :=
    {| AnnotatedPtr.result :=
         {| AnnotatedClassUtil.get := 100; AnnotatedClassUtil.props := [] |};
       AnnotatedPtr.mul :=
         {| AnnotatedClassUtil.get := 20; AnnotatedClassUtil.props := [] |} |} in
  AnnotatedPtr.pipeWithAnnotatedPtr_call k [0] (fun _ => S754_zero false)
  = None.
Proof.
  intros k.
  apply (proj1 (pipe_kernel_spec k [0] (fun _ => S754_zero false))).
  cbn [List.length]. lia.
Defined.

(** X15. The host of the annotated-pointer sample computes the expected
    sums with the operations of the kernel, in the same order, and compares
    with [!=]: when [returnData[0]] is neither in the second row nor among
    the weights, [success] is true exactly when neither sum is NaN; a NaN
    sum is reported as an error although kernel and host agree. *)
Theorem host_run_verdict (r0 r1 mul returnData : AnnotatedClassUtil.pointer)
    (m : AnnotatedPtr.memory) :
  (forall j, 0 <= j < AnnotatedPtr.COLS ->
     returnData <> r1 + j /\ returnData <> mul + j) ->
  AnnotatedPtr.host_run [r0; r1] mul returnData m
  = Some (negb (isnan (AnnotatedPtr.weighted_sum m r0 mul))
          && negb (isnan (AnnotatedPtr.weighted_sum m r1 mul))).
Proof. apply HostFacts.host_run_two_rows. Qed.

(** Rows at 0 and 5, weights at 10, results at 20; the second weight is
    NaN, and the test fails. *)
Lemma host_run_verdict_witness :
  AnnotatedPtr.host_run [0; 5] 10 20
    (fun q => if q =? 11 then S754_nan else AnnotatedPtr.float_of_int q)
  = Some false.
Proof.
  rewrite host_run_verdict by (unfold AnnotatedPtr.COLS; lia).
  vm_compute. reflexivity.
Defined.

(** X16. With the data of the host, which are small non-negative integers
    (any finite values that are not negative), no sum is NaN and the sample
    reports success, whatever the values and wherever the arrays are, as
    long as [returnData[0]] is neither in the second row nor among the
    weights. *)
Theorem host_run_succeeds (r0 r1 mul returnData : AnnotatedClassUtil.pointer)
    (m : AnnotatedPtr.memory) :
  (forall j, 0 <= j < AnnotatedPtr.COLS ->
     returnData <> r1 + j /\ returnData <> mul + j) ->
  (forall j, 0 <= j < AnnotatedPtr.COLS ->
     AnnotatedPtr.finite_nonneg (m (r0 + j)) = true
     /\ AnnotatedPtr.finite_nonneg (m (r1 + j)) = true
     /\ AnnotatedPtr.finite_nonneg (m (mul + j)) = true) ->
  AnnotatedPtr.host_run [r0; r1] mul returnData m = Some true.
Proof.
  intros Hsep Hdata.
  rewrite HostFacts.host_run_two_rows by exact Hsep.
  assert (H0 : AnnotatedPtr.nonneg (AnnotatedPtr.weighted_sum m r0 mul) = true).
  { apply PipeFacts.weighted_sum_nonneg. intros j Hj.
    destruct (Hdata j Hj) as (Ha & _ & Hc). split; assumption. }
  assert (H1 : AnnotatedPtr.nonneg (AnnotatedPtr.weighted_sum m r1 mul) = true).
  { apply PipeFacts.weighted_sum_nonneg. intros j Hj.
    destruct (Hdata j Hj) as (_ & Hb & Hc). split; assumption. }
  destruct (AnnotatedPtr.weighted_sum m r0 mul); try discriminate H0;
    destruct (AnnotatedPtr.weighted_sum m r1 mul); try discriminate H1;
    reflexivity.
Qed.

Lemma host_run_succeeds_witness :
  AnnotatedPtr.host_run [0; 5] 10 20
    (fun q => AnnotatedPtr.float_of_int ((7 * q + 3) mod 10))
  = Some true.
Proof.
  apply host_run_succeeds.
  - unfold AnnotatedPtr.COLS. lia.
  - intros j Hj. unfold AnnotatedPtr.COLS in Hj.
    assert (Hc : j = 0 \/ j = 1 \/ j = 2 \/ j = 3 \/ j = 4) by lia.
    destruct Hc as [-> | [-> | [-> | [-> | ->]]]];
      vm_compute; repeat split; reflexivity.
Defined.
